(** * Document intake portal: upload proxy, submission orchestrator, viewer

    A shallow embedding of the three TypeScript units of the portal

    - [app/api/upload/route.ts]       (the upload proxy, [POST]),
    - [components/document-upload-form.tsx] ([uploadFile], [onSubmit]),
    - [app/submissions/page.tsx]      ([formatDocType], the page's render),

    together with the properties the specification states about them.

    JavaScript strings are sequences of UTF-16 code units; they are
    modelled as [list Z].  Regular expressions without the [u] flag work
    code unit by code unit, which is how the replacements are written
    below.  Objects used as maps from the twelve category keys are
    [gmap string _] on the write side, and a list of entries in property
    order on the read side, where [Object.entries] fixes the order of the
    rendered children. *)

From Stdlib Require Import ZArith Ascii String List Lia Bool.
From stdpp Require Import base gmap strings list fin_maps pretty.

Open Scope Z_scope.

(** ** JavaScript strings *)

Module JS.

(** A string value: its UTF-16 code units. *)
Definition jsstring := list Z.

(** The code units of an ASCII literal. *)
Definition js (s : string) : jsstring :=
  map (fun a => Z.of_N (N_of_ascii a)) (list_ascii_of_string s).

(** Truthiness of a string ([""] is the only falsy string). *)
Definition truthy (s : jsstring) : bool :=
  match s with [] => false | _ :: _ => true end.

(** [s.split(c)] for a one-character separator: never the empty array. *)
Fixpoint split (c : Z) (s : jsstring) : list jsstring :=
  match s with
  | [] => [[]]
  | x :: xs =>
      if x =? c then [] :: split c xs
      else match split c xs with
           | h :: t => (x :: h) :: t
           | [] => [[x]]
           end
  end.

(** [a.pop()] as a value: the last element, [undefined] on the empty array. *)
Definition pop (a : list jsstring) : option jsstring := last a.

(** [s.lastIndexOf(c)], with [-1] when [c] does not occur. *)
Fixpoint lastIndexOf (c : Z) (s : jsstring) : Z :=
  match s with
  | [] => -1
  | x :: xs =>
      let i := lastIndexOf c xs in
      if 0 <=? i then 1 + i
      else if x =? c then 0 else -1
  end.

(** Clamping of a [substring] index into [0 .. length]. *)
Definition clamp (s : jsstring) (i : Z) : nat :=
  Z.to_nat (Z.max 0 (Z.min i (Z.of_nat (length s)))).

(** [s.substring(a, b)]: both indices clamped, swapped when [a > b]. *)
Definition substring (a b : Z) (s : jsstring) : jsstring :=
  let a' := clamp s a in
  let b' := clamp s b in
  let lo := Nat.min a' b' in
  let hi := Nat.max a' b' in
  take (hi - lo) (drop lo s).

(** [s.substring(a)]. *)
Definition substringFrom (a : Z) (s : jsstring) : jsstring :=
  substring a (Z.of_nat (length s)) s.

(** [n || m] on numbers that are not NaN: [0] is the falsy one. *)
Definition orNumber (n m : Z) : Z := if n =? 0 then m else n.

(** [s || t] on strings. *)
Definition orString (s t : jsstring) : jsstring := if truthy s then s else t.

(** The string of an integral number below [1e21] in magnitude, as a
    template literal prints it: decimal digits, [-] for negatives. *)
Definition numberToString (n : Z) : jsstring := js (pretty n).

Definition isUpper (c : Z) : bool := (65 <=? c) && (c <=? 90).
Definition isLower (c : Z) : bool := (97 <=? c) && (c <=? 122).
Definition isDigit (c : Z) : bool := (48 <=? c) && (c <=? 57).
Definition isAlnum (c : Z) : bool := isLower c || isUpper c || isDigit c.

Definition underscore : Z := 95.
Definition dot : Z := 46.
Definition hyphen : Z := 45.
Definition slash : Z := 47.
Definition space : Z := 32.

(** [s.toLowerCase()] on a string whose letters are ASCII: the only
    strings it is applied to here (see [safeCompanyName_arg_ascii]). *)
Definition toLowerCaseAscii (s : jsstring) : jsstring :=
  map (fun c => if isUpper c then c + 32 else c) s.

End JS.

Import JS.

(** ** The upload proxy: [app/api/upload/route.ts] *)

Module Sanitizer.

(** [/[^a-zA-Z0-9]/g] replaced by ['_']. *)
Definition replaceNonAlnum (s : jsstring) : jsstring :=
  map (fun c => if isAlnum c then c else underscore) s.

(** [companyName.replace(/[^a-zA-Z0-9]/g, '_').toLowerCase()] *)
Definition safeCompanyName (companyName : jsstring) : jsstring :=
  toLowerCaseAscii (replaceNonAlnum companyName).

(** [originalName.split('.').pop() || ''] *)
Definition fileExtension (originalName : jsstring) : jsstring :=
  match pop (split dot originalName) with
  | Some e => orString e []
  | None => []
  end.

(** [originalName.substring(0, originalName.lastIndexOf('.') || originalName.length)] *)
Definition baseName (originalName : jsstring) : jsstring :=
  substring 0
    (orNumber (lastIndexOf dot originalName) (Z.of_nat (length originalName)))
    originalName.

(** The class of combining diacritical marks, U+0300 to U+036F. *)
Definition isDiacritic (c : Z) : bool := (768 <=? c) && (c <=? 879).

(** [.replace(/[\u0300-\u036f]/g, '')] *)
Definition removeDiacritics (s : jsstring) : jsstring :=
  filter (fun c => isDiacritic c = false) s.

(** The class [[a-zA-Z0-9.\-_]]. *)
Definition isAllowed (c : Z) : bool :=
  isAlnum c || (c =? dot) || (c =? hyphen) || (c =? underscore).

(** [.replace(/[^a-zA-Z0-9.\-_]/g, '_')] *)
Definition replaceInvalid (s : jsstring) : jsstring :=
  map (fun c => if isAllowed c then c else underscore) s.

(** [.replace(/_+/g, '_')]: every maximal run of ['_'] becomes one. *)
Fixpoint collapseUnderscores (s : jsstring) : jsstring :=
  match s with
  | [] => []
  | x :: xs =>
      if x =? underscore then
        match xs with
        | y :: _ => if y =? underscore then collapseUnderscores xs
                    else x :: collapseUnderscores xs
        | [] => [x]
        end
      else x :: collapseUnderscores xs
  end.

(** A string in which no ['_'] is followed by another. *)
Inductive noUnderscoreRun : jsstring -> Prop :=
| nur_nil : noUnderscoreRun []
| nur_one c : noUnderscoreRun [c]
| nur_cons c d s :
    ~ (c = underscore /\ d = underscore) ->
    noUnderscoreRun (d :: s) -> noUnderscoreRun (c :: d :: s).

Section WithNormalize.

(** [String.prototype.normalize('NFD')] belongs to the runtime: the
    Unicode canonical decomposition is taken as given. *)
Variable normalizeNFD : jsstring -> jsstring.

Definition safeBaseName (baseName : jsstring) : jsstring :=
  collapseUnderscores
    (replaceInvalid (removeDiacritics (normalizeNFD baseName))).

(** [`${safeCompanyName}_${safeBaseName}_${timestamp}.${fileExtension}`] *)
Definition storageFileName
  (companyName originalName : jsstring) (timestamp : Z) : jsstring :=
  safeCompanyName companyName ++ [underscore]
    ++ safeBaseName (baseName originalName) ++ [underscore]
    ++ numberToString timestamp ++ [dot]
    ++ fileExtension originalName.

(** [`${folder}/${storageFileName}`] *)
Definition storagePath
  (folder companyName originalName : jsstring) (timestamp : Z) : jsstring :=
  folder ++ [slash] ++ storageFileName companyName originalName timestamp.

End WithNormalize.

End Sanitizer.

Import Sanitizer.


Module Upload.

(** A [File] of the Web API: its name, media type and bytes. *)
Record File := mkFile {
  name : jsstring;
  type : jsstring;
  bytes : list Z
}.

(** A form-data entry is a string or a file. *)
Inductive FormDataEntryValue :=
| EntryString (s : jsstring)
| EntryFile (f : File).

(** Multipart form data: the entries in the order they were appended. *)
Definition FormData := list (string * FormDataEntryValue).

(** [formData.get(name)]: the first entry of that name, or [null]. *)
Fixpoint get (field : string) (fd : FormData) : option FormDataEntryValue :=
  match fd with
  | [] => None
  | (k, v) :: rest => if String.eqb k field then Some v else get field rest
  end.

(** [!v] for what [get] returns: [null] and [""] are falsy, a [File]
    object is truthy whatever its size. *)
Definition falsy (v : option FormDataEntryValue) : bool :=
  match v with
  | None => true
  | Some (EntryString s) => negb (truthy s)
  | Some (EntryFile _) => false
  end.

(** The two ways for a field to be falsy: not in the form at all, or
    there with the empty string as its value. *)
Definition absent (v : option FormDataEntryValue) : Prop := v = None.
Definition missing (v : option FormDataEntryValue) : Prop :=
  v = None \/ v = Some (EntryString []).

(** String conversion of an entry inside a template literal. *)
Definition entryToString (v : FormDataEntryValue) : jsstring :=
  match v with
  | EntryString s => s
  | EntryFile _ => js "[object File]"
  end.

(** What [supabase.storage.from(bucket).upload(...)] resolves to:
    [{ data: { path }, error: null }], [{ data: null, error }], or a
    rejected promise. *)
Inductive StorageResult :=
| Stored (path : jsstring)
| StorageError (message : jsstring)
| StorageRejects.

(** The collaborators of one call of the route handler. *)
Record Env := mkEnv {
  normalizeNFD : jsstring -> jsstring;
  now : Z;
  storageUpload : jsstring -> list Z -> jsstring -> StorageResult
}.

(** The incoming request: [request.formData()] resolves to the parsed
    form, or rejects when the body is not form data. *)
Record Request := mkRequest { formData : option FormData }.

Inductive ResponseBody :=
| PathBody (path : jsstring)
| ErrorBody (error : jsstring).

Record Response := mkResponse { status : Z; body : ResponseBody }.

(** Completion of a block inside [try]: a value, or a thrown exception. *)
Inductive Completion (A : Type) :=
| Normal (a : A)
| Throw.
Arguments Normal {A} a.
Arguments Throw {A}.

Definition bind {A B} (c : Completion A) (k : A -> Completion B) : Completion B :=
  match c with
  | Normal a => k a
  | Throw => Throw
  end.

Notation "x <- c ;; k" := (bind c (fun x => k))
  (at level 100, c at next level, right associativity).

(** [try { ... } catch (error) { handler }] *)
Definition tryCatch {A} (c : Completion A) (handler : A) : A :=
  match c with
  | Normal a => a
  | Throw => handler
  end.

(** [companyName.replace(...)]: a method of strings only. *)
Definition asString (v : FormDataEntryValue) : Completion jsstring :=
  match v with
  | EntryString s => Normal s
  | EntryFile _ => Throw
  end.

(** [file.name] followed by [.split]: [name] is [undefined] on a string. *)
Definition asFile (v : FormDataEntryValue) : Completion File :=
  match v with
  | EntryFile f => Normal f
  | EntryString _ => Throw
  end.

Definition fromOption {A} (o : option A) : Completion A :=
  match o with
  | Some a => Normal a
  | None => Throw
  end.

(** The body of the [try] block of [POST]. *)
Definition POST_body (env : Env) (request : Request) : Completion Response :=
  fd <- fromOption (formData request) ;;
  let file := get "file" fd in
  let folder := get "folder" fd in
  let companyName := get "companyName" fd in
  if falsy file || falsy folder || falsy companyName then
    Normal (mkResponse 400 (ErrorBody (js "Missing required fields")))
  else
    fileV <- fromOption file ;;
    folderV <- fromOption folder ;;
    companyV <- fromOption companyName ;;
    company <- asString companyV ;;
    f <- asFile fileV ;;
    let timestamp := now env in
    let path :=
      storagePath (normalizeNFD env) (entryToString folderV) company
        (name f) timestamp in
    match storageUpload env path (bytes f) (type f) with
    | StorageRejects => Throw
    | StorageError message => Normal (mkResponse 500 (ErrorBody message))
    | Stored p => Normal (mkResponse 200 (PathBody p))
    end.

(** [export async function POST(request)] *)
Definition POST (env : Env) (request : Request) : Response :=
  tryCatch (POST_body env request)
    (mkResponse 500 (ErrorBody (js "Server error occurred"))).

End Upload.

Import Upload.

(** ** The submission orchestrator: [components/document-upload-form.tsx] *)

Module Orchestrator.

(** [documentTypes]: the twelve categories, key and label, in the
    order of the array literal. *)
Definition documentTypes : list (string * string) :=
  [ ("companyRegistration", "Company Registration");
    ("companyDeclaration", "Company Declaration");
    ("importPermit", "Import Permit");
    ("tk10", "TK 10");
    ("tk11", "TK 11");
    ("tk32", "TK 32");
    ("tk31", "TK 31");
    ("purchaseOrder", "Purchase Order");
    ("idCardCopy", "ID Card Copy");
    ("msds", "MSDS");
    ("commercialInvoice", "Commercial Invoice");
    ("packingList", "Packing List") ]%string.

Definition documentKeys : list string := map fst documentTypes.

(** The validated form values: the company name and, per category key,
    the [FileList] of the input ([undefined] when nothing was chosen). *)
Record DocumentUploadFormValues := mkValues {
  companyName : jsstring;
  fileLists : gmap string (list File)
}.

(** What [fetch('/api/upload', ...)] gives: a rejected promise, or a
    response with its status and its JSON body, of which only [path]
    is read ([None] for a body that is not JSON, [Some None] for JSON
    without a [path]). *)
Inductive FetchResult :=
| FetchRejects
| FetchResponse (status : Z) (json : option (option jsstring)).

(** [response.ok] *)
Definition ok (status : Z) : bool := (200 <=? status) && (status <=? 299).

(** The three fields [uploadFile] appends, in order. *)
Definition uploadForm (file : File) (folder : string) (companyName : jsstring)
  : FormData :=
  [ ("file"%string, EntryFile file);
    ("folder"%string, EntryString (js folder));
    ("companyName"%string, EntryString companyName) ].

(** [uploadFile] after the request was sent: [null] unless the response
    is ok and its JSON parses, then [result.path]. *)
Definition uploadResult (r : FetchResult) : option jsstring :=
  tryCatch
    (match r with
     | FetchRejects => Throw
     | FetchResponse st json =>
         if negb (ok st) then Normal None
         else result <- fromOption json ;; Normal result
     end)
    None.

(** [if (path)]: [null], [undefined] and [""] are falsy. *)
Definition truthyPath (p : option jsstring) : option jsstring :=
  match p with
  | Some s => if truthy s then Some s else None
  | None => None
  end.

(** One upload attempt as the network saw it. *)
Record Attempt := mkAttempt {
  sent : FormData;
  received : FetchResult
}.

(** The variables of [onSubmit] that the loops update, and the trace of
    requests sent so far. *)
Record LoopState := mkLoop {
  documentPaths : gmap string (list jsstring);
  anyUploadsSucceeded : bool;
  attempts : list Attempt
}.

Inductive InsertResult :=
| Inserted
| InsertError (message : jsstring)
| InsertRejects.

(** The row handed to [insert]. *)
Record SubmissionRow := mkRow {
  company_name : jsstring;
  document_paths : gmap string (list jsstring);
  uploaded_at : jsstring
}.

Inductive Toast :=
| ToastError (title description : string)
| ToastSuccess (title description : string).

(** The collaborators of one submission: the network (the answer may
    depend on how many requests came before), the database and the clock. *)
Record Env := mkEnv {
  fetch : nat -> FormData -> FetchResult;
  insert : SubmissionRow -> InsertResult;
  nowISO : jsstring
}.

(** Everything [onSubmit] does that is visible from outside. *)
Record Outcome := mkOutcome {
  uploads : list Attempt;
  inserts : list SubmissionRow;
  toasts : list Toast;
  formReset : bool;
  isUploading : bool
}.

Section WithEnv.

Variable env : Env.

(** [documentTypes.forEach(doc => { documentPaths[doc.key] = []; })] *)
Definition initPaths : gmap string (list jsstring) :=
  fold_left (fun m doc => <[fst doc := []]> m) documentTypes ∅.

(** One iteration of the inner [for]: the upload, then the [push]
    guarded by [if (path)].  A [push] on a missing entry would throw
    and be caught by the [catch] around the iteration. *)
Definition uploadOne (key : string) (company : jsstring)
  (st : LoopState) (file : File) : LoopState :=
  let form := uploadForm file key company in
  let r := fetch env (length (attempts st)) form in
  let tr := attempts st ++ [mkAttempt form r] in
  match truthyPath (uploadResult r) with
  | Some path =>
      match documentPaths st !! key with
      | Some l =>
          mkLoop (<[key := l ++ [path]]> (documentPaths st)) true tr
      | None => mkLoop (documentPaths st) (anyUploadsSucceeded st) tr
      end
  | None => mkLoop (documentPaths st) (anyUploadsSucceeded st) tr
  end.

(** The body of [for (const doc of documentTypes)]. *)
Definition processDoc (data : DocumentUploadFormValues)
  (st : LoopState) (doc : string * string) : LoopState :=
  match fileLists data !! fst doc with
  | Some files => fold_left (uploadOne (fst doc) (companyName data)) files st
  | None => st
  end.

(** Both loops, from the initial state. *)
Definition processFiles (data : DocumentUploadFormValues) : LoopState :=
  fold_left (processDoc data) documentTypes (mkLoop initPaths false []).

(** [onSubmit]: the loops, then the insert guarded by
    [anyUploadsSucceeded], inside the outer [try]/[catch]/[finally]. *)
Definition onSubmit (data : DocumentUploadFormValues) : Outcome :=
  let st := processFiles data in
  if anyUploadsSucceeded st then
    let row := mkRow (companyName data) (documentPaths st) (nowISO env) in
    match insert env row with
    | InsertError _ =>
        mkOutcome (attempts st) [row]
          [ToastError "Database Error" "Could not save document information."]
          false false
    | Inserted =>
        mkOutcome (attempts st) [row]
          [ToastSuccess "Documents Uploaded" "Your documents have been processed."]
          true false
    | InsertRejects =>
        mkOutcome (attempts st) [row]
          [ToastError "Something went wrong" "Please try again later."]
          false false
    end
  else
    mkOutcome (attempts st) []
      [ToastError "Upload Failed" "Could not upload any documents."]
      false false.

End WithEnv.

(** *** Reading a run *)

(** The files chosen for a category, none when the field is undefined. *)
Definition selectedFiles (data : DocumentUploadFormValues) (key : string)
  : list File :=
  match fileLists data !! key with
  | Some files => files
  | None => []
  end.

(** The requests a submission has to send: every chosen file of every
    category, categories in the order of [documentTypes], files in the
    order of the [FileList]. *)
Definition allRequests (data : DocumentUploadFormValues) : list FormData :=
  flat_map
    (fun doc => map (fun f => uploadForm f (fst doc) (companyName data))
                  (selectedFiles data (fst doc)))
    documentTypes.

(** The path an attempt contributed: [None] for a failed upload. *)
Definition attemptPath (a : Attempt) : option jsstring :=
  truthyPath (uploadResult (received a)).

(** Whether an attempt was sent for the category [key]. *)
Definition sentTo (key : string) (a : Attempt) : bool :=
  match get "folder" (sent a) with
  | Some (EntryString s) => bool_decide (s = js key)
  | _ => false
  end.

(** The paths of the successful attempts of a category, in order. *)
Definition pathsOf (key : string) (tr : list Attempt) : list jsstring :=
  omap attemptPath (List.filter (sentTo key) tr).

(** Whether an attempt ended with a path that [if (path)] accepts. *)
Definition succeeded (a : Attempt) : bool :=
  match attemptPath a with
  | Some _ => true
  | None => false
  end.

(** What the loops keep true of their variables: the map has the
    twelve keys, each key holds the paths of its successful attempts,
    the flag says whether there was one, and the trace is what the
    network answered. *)
Definition coherent (env : Env) (st : LoopState) : Prop :=
  dom (documentPaths st) = (list_to_set documentKeys : gset string)
  /\ (forall k, In k documentKeys ->
        documentPaths st !! k = Some (pathsOf k (attempts st)))
  /\ anyUploadsSucceeded st = existsb succeeded (attempts st)
  /\ (forall i a, attempts st !! i = Some a ->
        received a = fetch env i (sent a)).

Definition uploadFailedToast : Toast :=
  ToastError "Upload Failed" "Could not upload any documents.".

(** The network when the route handler [Upload.POST] answers.  Between
    the form [uploadFile] builds and the request the handler reads lie
    the multipart encoding done by [fetch] and the parsing done by
    [request.formData()]; both belong to the platform, may rewrite what
    was sent (file names among it) and are taken as given: [wire] is
    what arrives for a form that was sent. *)
Definition fetchFromServer (wire : FormData -> Request)
  (server : nat -> Upload.Env) (n : nat) (form : FormData) : FetchResult :=
  let resp := POST (server n) (wire form) in
  FetchResponse (status resp)
    (Some (match body resp with
           | PathBody p => Some p
           | ErrorBody _ => None
           end)).

End Orchestrator.

(** ** The submission viewer: [app/submissions/page.tsx] *)

Module Viewer.

(** A JSON object read from the [document_paths] column: its entries in
    property order.  A value is an array of paths, or [null]. *)
Definition PathsObject := list (jsstring * option (list jsstring)).

(** [interface Submission] *)
Record Submission := mkSubmission {
  id : jsstring;
  company_name : jsstring;
  document_paths : option PathsObject;
  uploaded_at : jsstring
}.

(** The entries of the mapping of a submission, none for [null]. *)
Definition entriesOf (submission : Submission)
  : list (jsstring * option (list jsstring)) :=
  match document_paths submission with
  | Some m => m
  | None => []
  end.

(** [Object.keys], [Object.entries] and [Object.values] throw a
    [TypeError] on [null]. *)
Definition objectKeys (o : option PathsObject) : Completion (list jsstring) :=
  m <- fromOption o ;; Normal (map fst m).

Definition objectEntries (o : option PathsObject)
  : Completion (list (jsstring * option (list jsstring))) :=
  fromOption o.

Definition objectValues (o : option PathsObject)
  : Completion (list (option (list jsstring))) :=
  m <- fromOption o ;; Normal (map snd m).

(** [paths && paths.length > 0] *)
Definition hasPaths (paths : option (list jsstring)) : bool :=
  match paths with
  | Some (_ :: _) => true
  | _ => false
  end.

(** [!paths || paths.length === 0] *)
Definition noPaths (paths : option (list jsstring)) : bool :=
  match paths with
  | None => true
  | Some l => Nat.eqb (length l) 0
  end.

(** [.replace(/([A-Z])/g, ' $1')] *)
Definition spaceBeforeCapitals (s : jsstring) : jsstring :=
  flat_map (fun c => if isUpper c then [space; c] else [c]) s.

(** The line terminators, which [.] does not match. *)
Definition isLineTerminator (c : Z) : bool :=
  (c =? 10) || (c =? 13) || (c =? 8232) || (c =? 8233).

Section WithRuntime.

(** [String.prototype.toUpperCase], from the runtime. *)
Variable toUpperCase : jsstring -> jsstring.

(** [supabase.storage.from('customer-documents').getPublicUrl(path)]:
    [data?.publicUrl]. *)
Variable storagePublicUrl : jsstring -> option jsstring.

(** [.replace(/^./, (str) => str.toUpperCase())] *)
Definition capitalizeFirst (s : jsstring) : jsstring :=
  match s with
  | c :: rest => if isLineTerminator c then s else toUpperCase [c] ++ rest
  | [] => []
  end.

Definition formatDocType (docType : jsstring) : jsstring :=
  capitalizeFirst (spaceBeforeCapitals docType).

(** [data?.publicUrl || '#'] *)
Definition getPublicUrl (path : jsstring) : jsstring :=
  match storagePublicUrl path with
  | Some u => orString u (js "#")
  | None => js "#"
  end.

(** One [<a>] badge of a stored file. *)
Record Link := mkLink {
  linkKey : jsstring;
  href : jsstring;
  text : jsstring
}.

(** The children of the document list: a category with its links, or
    a [<p>] with a message. *)
Inductive Element :=
| Category (key heading : jsstring) (links : list Link)
| Paragraph (message : string).

(** What stands under the heading "Uploaded Documents:": the
    paragraph of the first branch, or the [<div>] with its children. *)
Inductive Documents :=
| NoDocuments (message : string)
| DocumentList (children : list Element).

(** The function given to [paths.map]. *)
Definition renderLink (path : jsstring) : Link :=
  let fileName := substringFrom (lastIndexOf slash path + 1) path in
  mkLink path (getPublicUrl path) (orString fileName path).

(** The function given to [.map] after the filter; [paths.map] on
    [null] would throw. *)
Definition renderCategory (entry : jsstring * option (list jsstring))
  : Completion Element :=
  paths <- fromOption (snd entry) ;;
  Normal (Category (fst entry) (formatDocType (fst entry)) (map renderLink paths)).

(** [array.map(f)] for an [f] that may throw. *)
Fixpoint mapM {A B} (f : A -> Completion B) (l : list A) : Completion (list B) :=
  match l with
  | [] => Normal []
  | x :: xs => y <- f x ;; ys <- mapM f xs ;; Normal (y :: ys)
  end.

(** The conditional under "Uploaded Documents:". *)
Definition renderDocuments (submission : Submission) : Completion Documents :=
  let dp := document_paths submission in
  empty <- (match dp with
            | None => Normal true
            | Some _ => keys <- objectKeys dp ;; Normal (Nat.eqb (length keys) 0)
            end) ;;
  if (empty : bool) then
    Normal (NoDocuments "No documents found for this submission.")
  else
    entries <- objectEntries dp ;;
    groups <- mapM renderCategory (List.filter (fun e => hasPaths (snd e)) entries) ;;
    values <- objectValues dp ;;
    Normal (DocumentList
              (groups ++
               if forallb noPaths values
               then [Paragraph "No documents found for this submission type."]
               else [])).

(** The categories and the messages among the children of a list. *)
Definition categoryKeys (l : list Element) : list jsstring :=
  flat_map (fun e => match e with
                     | Category k _ _ => [k]
                     | Paragraph _ => []
                     end) l.

Definition paragraphs (l : list Element) : list string :=
  flat_map (fun e => match e with
                     | Category _ _ _ => []
                     | Paragraph m => [m]
                     end) l.

(** The categories and the placeholder messages that are shown. *)
Definition shownCategories (d : Documents) : list jsstring :=
  match d with
  | NoDocuments _ => []
  | DocumentList children => categoryKeys children
  end.

Definition shownPlaceholders (d : Documents) : list string :=
  match d with
  | NoDocuments m => [m]
  | DocumentList children => paragraphs children
  end.

End WithRuntime.

End Viewer.

(** ** The form: fields, samples and schema *)

Module FormView.

(** [documentUploadSchema]: [companyName] is [z.string().min(2)], a
    string of at least two code units; the twelve file fields are
    [z.any().optional()] and accept every value. *)
Definition schemaAccepts (data : Orchestrator.DocumentUploadFormValues) : bool :=
  (2 <=? length (Orchestrator.companyName data))%nat.

(** [fileList && fileList.length > 0] in the render of a file field. *)
Definition hasFiles (fileList : option (list File)) : bool :=
  match fileList with
  | Some (_ :: _) => true
  | _ => false
  end.

(** [hasFiles ? Array.from(fileList) : []] *)
Definition filesArray (fileList : option (list File)) : list File :=
  if hasFiles fileList
  then match fileList with Some files => files | None => [] end
  else [].

(** What a file field shows besides its input: the class of the item
    and, when files are chosen, up to three names and the count of the
    others ("...and N more"). *)
Record FieldView := mkFieldView {
  className : string;
  preview : option (list jsstring * option Z)
}.

Definition fieldView (fileList : option (list File)) : FieldView :=
  let files := filesArray fileList in
  mkFieldView
    ("p-3 rounded-md transition-colors "
       +:+ (if hasFiles fileList then "border border-green-200" else ""))
    (if hasFiles fileList
     then Some (map name (take 3 files),
                if (3 <? length files)%nat
                then Some (Z.of_nat (length files) - 3)
                else None)
     else None).

(** [SAMPLE_DOCUMENTS] *)
Definition SAMPLE_DOCUMENTS : list (string * string) :=
  [
    ("companyRegistration",
     "https://dushtbccivxstisfalhr.supabase.co/storage/v1/object/public/sample-documents/sample-company-registration.pdf");
    ("companyDeclaration",
     "https://dushtbccivxstisfalhr.supabase.co/storage/v1/object/public/sample-documents/sample-company-declaration.pdf");
    ("importPermit",
     "https://dushtbccivxstisfalhr.supabase.co/storage/v1/object/public/sample-documents/sample-import-permit.pdf");
    ("tk10",
     "https://dushtbccivxstisfalhr.supabase.co/storage/v1/object/public/sample-documents/sample-tk10.pdf");
    ("tk11",
     "https://dushtbccivxstisfalhr.supabase.co/storage/v1/object/public/sample-documents/sample-tk11.pdf");
    ("tk31",
     "https://dushtbccivxstisfalhr.supabase.co/storage/v1/object/public/sample-documents/sample-tk31.pdf");
    ("tk32",
     "https://dushtbccivxstisfalhr.supabase.co/storage/v1/object/public/sample-documents/sample-tk32.pdf");
    ("purchaseOrder",
     "https://dushtbccivxstisfalhr.supabase.co/storage/v1/object/public/sample-documents/sample-purchase-order.pdf");
    ("idCardCopy",
     "https://dushtbccivxstisfalhr.supabase.co/storage/v1/object/public/sample-documents/sample-id-card.pdf");
    ("msds",
     "https://dushtbccivxstisfalhr.supabase.co/storage/v1/object/public/sample-documents/sample-msds.pdf");
    ("commercialInvoice",
     "https://dushtbccivxstisfalhr.supabase.co/storage/v1/object/public/sample-documents/sample-commercial-invoice.pdf");
    ("packingList",
     "https://dushtbccivxstisfalhr.supabase.co/storage/v1/object/public/sample-documents/sample-packing-list.pdf")
  ]%string.

(** The own properties of the object literal [SAMPLE_DOCUMENTS]. *)
Fixpoint ownSample (table : list (string * string)) (documentType : string)
  : option string :=
  match table with
  | [] => None
  | (k, url) :: rest =>
      if String.eqb k documentType then Some url
      else ownSample rest documentType
  end.

(** What a property read gives: a string, or something else (a function
    or an object) of which only the string conversion matters here. *)
Inductive PropertyValue :=
| StringValue (s : jsstring)
| ObjectValue (asString : jsstring).

(** [if (url)]: functions and objects are truthy. *)
Definition truthyValue (v : PropertyValue) : bool :=
  match v with
  | StringValue s => truthy s
  | ObjectValue _ => true
  end.

(** [`${url}`] *)
Definition valueToString (v : PropertyValue) : jsstring :=
  match v with
  | StringValue s => s
  | ObjectValue s => s
  end.

Section WithPrototype.

(** The properties every object literal inherits ([constructor],
    [toString], ...), from the runtime: for such a name, the string
    conversion of the function or object that is found. *)
Variable objectPrototype : string -> option jsstring.

(** [SAMPLE_DOCUMENTS[documentType]]: an own property first, then an
    inherited one, else [undefined]. *)
Definition lookupSample (documentType : string) : option PropertyValue :=
  match ownSample SAMPLE_DOCUMENTS documentType with
  | Some url => Some (StringValue (js url))
  | None =>
      match objectPrototype documentType with
      | Some v => Some (ObjectValue v)
      | None => None
      end
  end.

(** [openSampleDocument]: the URL given to [window.open], nothing when
    the read gives [undefined] or a falsy value; [now] is
    [new Date().getTime()].  The parameter's type, [keyof typeof
    SAMPLE_DOCUMENTS], is checked at compile time only. *)
Definition openSampleDocument (documentType : string) (now : Z)
  : option jsstring :=
  match lookupSample documentType with
  | Some url =>
      if truthyValue url
      then Some (valueToString url ++ js "?t=" ++ numberToString now)
      else None
  | None => None
  end.

End WithPrototype.

End FormView.

(** ** The submissions page: loading the list *)

Module SubmissionsPage.

(** The state of the page: [submissions], [loading], [error]. *)
Record PageState := mkPage {
  submissions : list Viewer.Submission;
  loading : bool;
  error : option jsstring
}.

(** [useState] initial values. *)
Definition initialPage : PageState := mkPage [] true None.

(** What the query resolves to: [{ data, error: null }] with [data]
    possibly [null], [{ error }], or a rejected promise. *)
Inductive QueryResult :=
| QueryData (data : option (list Viewer.Submission))
| QueryError (message : jsstring)
| QueryRejects.

(** [fetchSubmissions], from its first [setLoading(true)] to the
    [finally]. *)
Definition fetchSubmissions (st : PageState) (r : QueryResult) : PageState :=
  match r with
  | QueryError message =>
      mkPage (submissions st) false
        (Some (js "Failed to load submissions. " ++ message))
  | QueryData data =>
      mkPage (match data with Some l => l | None => [] end) false None
  | QueryRejects =>
      mkPage (submissions st) false (Some (js "An unexpected error occurred."))
  end.

(** [error && ...] and [!error]: [null] and [""] are falsy. *)
Definition hasError (st : PageState) : bool :=
  match error st with
  | Some m => truthy m
  | None => false
  end.

(** The four conditional blocks under the heading. *)
Record PageView := mkPageView {
  skeletons : bool;
  alert : option jsstring;
  noSubmissions : bool;
  cards : list Viewer.Submission
}.

Definition renderPage (st : PageState) : PageView :=
  mkPageView
    (loading st)
    (if hasError st then error st else None)
    (negb (loading st) && negb (hasError st)
       && Nat.eqb (length (submissions st)) 0)
    (if negb (loading st) && negb (hasError st)
          && Nat.ltb 0 (length (submissions st))
     then submissions st
     else []).

(** How many of the four blocks are on the page. *)
Definition blocksShown (v : PageView) : nat :=
  ((if skeletons v then 1 else 0)
   + (match alert v with Some _ => 1 | None => 0 end)
   + (if noSubmissions v then 1 else 0)
   + (match cards v with [] => 0 | _ :: _ => 1 end))%nat.

End SubmissionsPage.

(** ** From the written row to the page *)

Module Stored.

(** A storage backend that stores under the key it is given, as the
    bucket does: the path it reports is the requested one. *)
Definition echoes (env : Upload.Env) : Prop :=
  forall path content contentType p,
    storageUpload env path content contentType = Stored p -> p = path.

(** The object [documentPaths] of a row as its entries in insertion
    order: the twelve keys in the order of [documentTypes]. *)
Definition entries (row : Orchestrator.SubmissionRow) : Viewer.PathsObject :=
  map (fun k => (js k, Orchestrator.document_paths row !! k))
    Orchestrator.documentKeys.

(** A path that lies in the folder of a category. *)
Definition inFolder (key : string) (path : jsstring) : Prop :=
  exists fileName, path = js key ++ [slash] ++ fileName.

End Stored.

(** ** The base-name pipeline in the words of its description *)

Module SanitizerSpec.

(** The class [a-zA-Z0-9._-], by code units. *)
Definition inClass (c : Z) : Prop :=
  48 <= c <= 57 \/ 65 <= c <= 90 \/ 97 <= c <= 122
  \/ c = 45 \/ c = 46 \/ c = 95.

(** The combining diacritical marks, U+0300 to U+036F. *)
Definition combiningMark (c : Z) : Prop := 768 <= c <= 879.

(** [marksRemoved s d]: [d] is [s] with its combining marks left out and
    every other code unit kept, in order. *)
Inductive marksRemoved : jsstring -> jsstring -> Prop :=
| mr_nil : marksRemoved [] []
| mr_drop c s d :
    combiningMark c -> marksRemoved s d -> marksRemoved (c :: s) d
| mr_keep c s d :
    ~ combiningMark c -> marksRemoved s d -> marksRemoved (c :: s) (c :: d).

(** One code unit after the replacement: kept when it is in the class,
    ['_'] otherwise. *)
Definition replacedBy (c r : Z) : Prop :=
  (inClass c /\ r = c) \/ (~ inClass c /\ r = 95).

(** [runsCollapsed r b]: [b] is [r] with every maximal run of ['_']
    replaced by a single ['_'] and every other code unit kept. *)
Inductive runsCollapsed : jsstring -> jsstring -> Prop :=
| rc_nil : runsCollapsed [] []
| rc_keep c s t :
    c <> 95 -> runsCollapsed s t -> runsCollapsed (c :: s) (c :: t)
| rc_run n s t :
    head s <> Some 95 -> runsCollapsed s t ->
    runsCollapsed (repeat 95 (S n) ++ s) (95 :: t).

End SanitizerSpec.

(** ** Instances used to run the model on concrete inputs *)

Module Samples.

(** Canonical decomposition of a few precomposed Latin letters; every
    other code unit, all of ASCII included, is left as it is. *)
Definition decomposeSample (c : Z) : jsstring :=
  if c =? 224 then [97; 768]        (* a with grave *)
  else if c =? 233 then [101; 769]  (* e with acute *)
  else if c =? 241 then [110; 771]  (* n with tilde *)
  else if c =? 252 then [117; 776]  (* u with diaeresis *)
  else [c].

Definition nfdSample (s : jsstring) : jsstring := flat_map decomposeSample s.

(** A storage backend that accepts every object under its key. *)
Definition acceptingStorage (path : jsstring) (_ : list Z) (_ : jsstring)
  : StorageResult := Stored path.

(** A storage backend that refuses every object. *)
Definition refusingStorage (_ : jsstring) (_ : list Z) (_ : jsstring)
  : StorageResult := StorageError (js "Bucket not found").

Definition serverAt (t : Z) : Upload.Env :=
  Upload.mkEnv nfdSample t acceptingStorage.

Definition brokenServerAt (t : Z) : Upload.Env :=
  Upload.mkEnv nfdSample t refusingStorage.

Definition invoice : File :=
  mkFile (js "Invoice #1.pdf") (js "application/pdf") [37; 80; 68; 70].

Definition readme : File :=
  mkFile (js "README") (js "text/plain") [104; 105].

(** The transport on a form in which nothing needs escaping (the file
    names and values used below): it arrives as it was sent. *)
Definition plainWire (form : FormData) : Request := mkRequest (Some form).

(** Two of the properties a plain object inherits. *)
Definition prototypeSample (name : string) : option jsstring :=
  if String.eqb name "constructor"
  then Some (js "function Object() { [native code] }")
  else if String.eqb name "toString"
  then Some (js "function toString() { [native code] }")
  else None.

(** The portal with the route handler behind [fetch]; the [n]-th
    request is served at a later millisecond. *)
Definition workingPortal : Orchestrator.Env :=
  Orchestrator.mkEnv
    (Orchestrator.fetchFromServer plainWire
       (fun n => serverAt (1700000000000 + Z.of_nat n)))
    (fun _ => Orchestrator.Inserted)
    (js "2023-11-14T22:13:20.000Z").

(** The same with a storage backend that refuses every write. *)
Definition brokenPortal : Orchestrator.Env :=
  Orchestrator.mkEnv
    (Orchestrator.fetchFromServer plainWire
       (fun n => brokenServerAt (1700000000000 + Z.of_nat n)))
    (fun _ => Orchestrator.Inserted)
    (js "2023-11-14T22:13:20.000Z").

(** The same with a network that drops the first request. *)
Definition flakyPortal : Orchestrator.Env :=
  Orchestrator.mkEnv
    (fun n form =>
       match n with
       | O => Orchestrator.FetchRejects
       | S _ =>
           Orchestrator.fetchFromServer plainWire
             (fun n => serverAt (1700000000000 + Z.of_nat n)) n form
       end)
    (fun _ => Orchestrator.Inserted)
    (js "2023-11-14T22:13:20.000Z").

Definition oneInvoice : Orchestrator.DocumentUploadFormValues :=
  Orchestrator.mkValues (js "Acme Co.")
    {[ "commercialInvoice"%string := [invoice] ]}.

Definition threeFiles : Orchestrator.DocumentUploadFormValues :=
  Orchestrator.mkValues (js "Acme Co.")
    (<[ "msds"%string := [readme; invoice] ]>
       {[ "commercialInvoice"%string := [invoice] ]}).

(** Upper case for ASCII letters, enough for the twelve keys. *)
Definition upperSample (s : jsstring) : jsstring :=
  map (fun c => if isLower c then c - 32 else c) s.

Definition publicUrlSample (path : jsstring) : option jsstring :=
  Some (js "https://storage.example/customer-documents/" ++ path).

Definition nullSubmission : Viewer.Submission :=
  Viewer.mkSubmission (js "1") (js "Acme Co.") None
    (js "2023-11-14T22:13:20.000Z").

Definition emptySubmission : Viewer.Submission :=
  Viewer.mkSubmission (js "2") (js "Acme Co.") (Some [])
    (js "2023-11-14T22:13:20.000Z").

Definition blankSubmission : Viewer.Submission :=
  Viewer.mkSubmission (js "3") (js "Acme Co.")
    (Some [(js "msds", Some []); (js "tk10", None)])
    (js "2023-11-14T22:13:20.000Z").

Definition invoiceSubmission : Viewer.Submission :=
  Viewer.mkSubmission (js "4") (js "Acme Co.")
    (Some [(js "msds", Some []);
           (js "commercialInvoice",
            Some [js "commercialInvoice/acme_co__Invoice_1_1700000000000.pdf"])])
    (js "2023-11-14T22:13:20.000Z").

Definition invoicePath : jsstring :=
  js "commercialInvoice/acme_co__Invoice_1_1700000000000.pdf".

End Samples.

Import Samples.

(** * Properties *)

(** ** String helpers *)

Lemma js_inj s t : js s = js t -> s = t.
Proof.
  revert t. induction s as [|a s IH]; intros [|b t]; cbn; try discriminate; auto.
  intros H. injection H as Hab Hst.
  apply N2Z.inj in Hab.
  f_equal; [|auto].
  rewrite <- (ascii_N_embedding a), <- (ascii_N_embedding b).
  now rewrite Hab.
Qed.

Lemma numberToString_inj n m : numberToString n = numberToString m -> n = m.
Proof.
  unfold numberToString. intros H. apply js_inj in H.
  now apply (inj pretty) in H.
Qed.

Lemma split_nonempty c s : split c s <> [].
Proof.
  destruct s as [|x xs]; cbn; [discriminate|].
  destruct (x =? c); [discriminate|].
  destruct (split c xs); discriminate.
Qed.

Lemma lastIndexOf_range c s : -1 <= lastIndexOf c s < Z.of_nat (length s).
Proof.
  induction s as [|x xs IH]; cbn [lastIndexOf length]; [lia|].
  destruct (0 <=? lastIndexOf c xs) eqn:E; [lia|].
  destruct (x =? c); lia.
Qed.

(** Without the separator the array has the whole string as its one
    element; with it, the array has at least two elements and the last
    one is what follows the last occurrence. *)
Lemma split_lastIndexOf c s :
  (lastIndexOf c s = -1 -> split c s = [s])
  /\ (0 <= lastIndexOf c s ->
      exists h t, split c s = h :: t /\ t <> []
        /\ last t = Some (drop (Z.to_nat (lastIndexOf c s + 1)) s)).
Proof.
  induction s as [|x xs [IH1 IH2]]; cbn [lastIndexOf split].
  - split; [reflexivity | lia].
  - pose proof (lastIndexOf_range c xs) as R.
    destruct (0 <=? lastIndexOf c xs) eqn:E.
    + apply Z.leb_le in E. split; [lia|]. intros _.
      destruct (IH2 E) as (h & t & S1 & Ht & L).
      replace (Z.to_nat (1 + lastIndexOf c xs + 1))
        with (S (Z.to_nat (lastIndexOf c xs + 1))) by lia.
      cbn [drop]. rewrite S1.
      destruct (x =? c).
      * exists [], (h :: t). split; [reflexivity|]. split; [discriminate|].
        destruct t; [contradiction | exact L].
      * exists (x :: h), t. split; [reflexivity|]. split; assumption.
    + apply Z.leb_gt in E. assert (N : lastIndexOf c xs = -1) by lia.
      specialize (IH1 N). rewrite IH1.
      destruct (x =? c) eqn:X.
      * split; [lia|]. intros _. exists [], [xs].
        split; [reflexivity|]. split; [discriminate | reflexivity].
      * split; [reflexivity | lia].
Qed.

Lemma lastIndexOf_absent c s : lastIndexOf c s = -1 <-> ~ In c s.
Proof.
  induction s as [|x xs IH]; cbn [lastIndexOf In].
  - split; [tauto | reflexivity].
  - pose proof (lastIndexOf_range c xs) as R.
    destruct (0 <=? lastIndexOf c xs) eqn:E.
    + apply Z.leb_le in E. split; [lia|].
      intros H. exfalso. apply H. right.
      destruct (in_dec Z.eq_dec c xs) as [i|n]; [exact i|].
      apply IH in n. lia.
    + apply Z.leb_gt in E. assert (N : lastIndexOf c xs = -1) by lia.
      apply IH in N.
      destruct (x =? c) eqn:X.
      * apply Z.eqb_eq in X. split; [lia | intros H; exfalso; apply H; now left].
      * apply Z.eqb_neq in X. split; [tauto | reflexivity].
Qed.

Lemma orString_empty e : orString e [] = e.
Proof. now destruct e. Qed.

(** ** The filename sanitizer *)

(** The extension the proxy computes is the suffix behind the last ['.'];
    this reads [-1 + 1 = 0] when there is none. *)
Lemma fileExtension_suffix originalName :
  fileExtension originalName
  = drop (Z.to_nat (lastIndexOf dot originalName + 1)) originalName.
Proof.
  unfold fileExtension, pop.
  destruct (split_lastIndexOf dot originalName) as [H1 H2].
  pose proof (lastIndexOf_range dot originalName) as R.
  destruct (Z.eq_dec (lastIndexOf dot originalName) (-1)) as [E|E].
  - rewrite (H1 E), E. cbn. apply orString_empty.
  - destruct H2 as (h & t & S1 & Ht & L); [lia|].
    rewrite S1.
    replace (last (h :: t)) with (last t) by (destruct t; [contradiction | reflexivity]).
    rewrite L. apply orString_empty.
Qed.

(** With a ['.'] in the name the extension is kept verbatim and the name
    is the text before the last ['.'], the ['.'], and the extension. *)
Lemma fileExtension_with_dot originalName :
  In dot originalName ->
  exists stem,
    originalName = stem ++ [dot] ++ fileExtension originalName
    /\ ~ In dot (fileExtension originalName).
Proof.
  intros Hin. rewrite fileExtension_suffix.
  induction originalName as [|x xs IH]; [contradiction|].
  cbn [lastIndexOf].
  pose proof (lastIndexOf_range dot xs) as R.
  destruct (0 <=? lastIndexOf dot xs) eqn:E.
  - apply Z.leb_le in E.
    assert (Hxs : In dot xs).
    { destruct (in_dec Z.eq_dec dot xs) as [i|n]; [exact i|].
      apply lastIndexOf_absent in n. lia. }
    destruct (IH Hxs) as (stem & Heq & Hno).
    replace (Z.to_nat (1 + lastIndexOf dot xs + 1))
      with (S (Z.to_nat (lastIndexOf dot xs + 1))) by lia.
    cbn [drop]. exists (x :: stem). split; [|exact Hno].
    cbn. f_equal. exact Heq.
  - apply Z.leb_gt in E. assert (N : lastIndexOf dot xs = -1) by lia.
    apply lastIndexOf_absent in N.
    destruct Hin as [->|Hin]; [|contradiction].
    rewrite Z.eqb_refl. cbn. exists []. split; [reflexivity | exact N].
Qed.

(** Without a ['.'] the whole name comes back as the extension. *)
Lemma fileExtension_without_dot originalName :
  ~ In dot originalName -> fileExtension originalName = originalName.
Proof.
  intros H. apply lastIndexOf_absent in H.
  rewrite fileExtension_suffix, H. reflexivity.
Qed.

(** ... and the base name is empty, since [-1 || length] is [-1]. *)
Lemma baseName_without_dot originalName :
  ~ In dot originalName -> baseName originalName = [].
Proof.
  intros H. apply lastIndexOf_absent in H.
  unfold baseName, substring, clamp, orNumber. rewrite H.
  change (-1 =? 0) with false. cbn iota.
  match goal with |- take ?n _ = _ => replace n with 0%nat by lia end.
  reflexivity.
Qed.

Lemma replaceNonAlnum_chars s :
  Forall (fun c => isAlnum c || (c =? underscore) = true) (replaceNonAlnum s).
Proof.
  induction s as [|d s IH]; cbn; constructor; [|exact IH].
  destruct (isAlnum d) eqn:E; [now rewrite E | reflexivity].
Qed.

(** [toLowerCase] only ever sees ASCII letters, digits and ['_']. *)
Lemma safeCompanyName_arg_ascii companyName :
  Forall (fun c => 0 <= c < 128) (replaceNonAlnum companyName).
Proof.
  eapply Forall_impl; [apply replaceNonAlnum_chars|].
  intros c. unfold isAlnum, isLower, isUpper, isDigit, underscore. cbn beta.
  lia.
Qed.

Lemma replaceInvalid_allowed s :
  Forall (fun c => isAllowed c = true) (replaceInvalid s).
Proof.
  induction s as [|d s IH]; cbn; constructor; [|exact IH].
  destruct (isAllowed d) eqn:E; [exact E | reflexivity].
Qed.


Lemma collapseUnderscores_subset s c :
  In c (collapseUnderscores s) -> In c s.
Proof.
  induction s as [|x xs IH]; [tauto|].
  cbn [collapseUnderscores].
  destruct (x =? underscore) eqn:X.
  - destruct xs as [|y ys]; [tauto|].
    destruct (y =? underscore).
    + intros H. right. now apply IH.
    + intros [->|H]; [now left | right; now apply IH].
  - intros [->|H]; [now left | right; now apply IH].
Qed.

Lemma collapseUnderscores_head x xs :
  exists rest, collapseUnderscores (x :: xs) = x :: rest.
Proof.
  revert x. induction xs as [|y ys IH]; intros x; cbn [collapseUnderscores].
  - destruct (x =? underscore); eexists; reflexivity.
  - destruct (x =? underscore) eqn:X; [|eexists; reflexivity].
    destruct (y =? underscore) eqn:Y; [|eexists; reflexivity].
    apply Z.eqb_eq in X, Y. subst. apply (IH underscore).
Qed.

Lemma collapseUnderscores_no_run s : noUnderscoreRun (collapseUnderscores s).
Proof.
  induction s as [|x xs IH]; [constructor|].
  cbn [collapseUnderscores].
  destruct (x =? underscore) eqn:X.
  - destruct xs as [|y ys]; [constructor|].
    destruct (y =? underscore) eqn:Y; [exact IH|].
    destruct (collapseUnderscores_head y ys) as [rest Hr].
    rewrite Hr in *. constructor; [|exact IH].
    apply Z.eqb_neq in Y. tauto.
  - destruct xs as [|y ys]; [constructor|].
    destruct (collapseUnderscores_head y ys) as [rest Hr].
    rewrite Hr in *. constructor; [|exact IH].
    apply Z.eqb_neq in X. tauto.
Qed.

Lemma safeBaseName_allowed normalizeNFD b :
  Forall (fun c => isAllowed c = true) (safeBaseName normalizeNFD b).
Proof.
  unfold safeBaseName.
  set (r := removeDiacritics (normalizeNFD b)).
  pose proof (replaceInvalid_allowed r) as A.
  rewrite List.Forall_forall in A |- *.
  intros c Hc. apply A. now apply collapseUnderscores_subset.
Qed.







(** The three steps, as described, leave no choice: each has one
    result. *)
Lemma marksRemoved_functional s d1 d2 :
  SanitizerSpec.marksRemoved s d1 -> SanitizerSpec.marksRemoved s d2 -> d1 = d2.
Proof.
  intros H1. revert d2. induction H1 as [|c s d Hc _ IH|c s d Hc _ IH];
    intros d2 H2; inversion H2; subst; try contradiction;
    [reflexivity | now apply IH | f_equal; now apply IH].
Qed.

Lemma replacedBy_functional d r1 r2 :
  Forall2 SanitizerSpec.replacedBy d r1 ->
  Forall2 SanitizerSpec.replacedBy d r2 -> r1 = r2.
Proof.
  intros H1. revert r2. induction H1 as [|c x d r Hx _ IH]; intros r2 H2;
    inversion H2 as [|? y ? r' Hy Hr]; subst; [reflexivity|].
  f_equal; [|now apply IH].
  destruct Hx as [[? ->]|[? ->]], Hy as [[? ->]|[? ->]];
    try reflexivity; contradiction.
Qed.

Lemma run_unique n1 n2 (s1 s2 : jsstring) :
  repeat 95 n1 ++ s1 = repeat 95 n2 ++ s2 ->
  head s1 <> Some 95 -> head s2 <> Some 95 ->
  n1 = n2 /\ s1 = s2.
Proof.
  revert n2. induction n1 as [|n1 IH]; intros [|n2] E H1 H2; cbn in E.
  - now split.
  - exfalso. subst s1. now apply H1.
  - exfalso. subst s2. now apply H2.
  - injection E as E. destruct (IH n2 E H1 H2) as [-> ->]. now split.
Qed.

Lemma runsCollapsed_functional r b1 b2 :
  SanitizerSpec.runsCollapsed r b1 -> SanitizerSpec.runsCollapsed r b2 ->
  b1 = b2.
Proof.
  intros H1. revert b2.
  induction H1 as [|c s t Hc _ IH|n s t Hh _ IH]; intros b2 H2.
  - inversion H2; subst; try reflexivity; discriminate.
  - inversion H2 as [|c' s' t' Hc' Ht'|n' s' t' Hh' Ht' E]; subst.
    + f_equal. now apply IH.
    + contradiction.
  - cbn [repeat app] in H2.
    inversion H2 as [|c' s' t' Hc' Ht'|n' s' t' Hh' Ht' E]; subst.
    + contradiction.
    + destruct (run_unique n' n s' s E Hh' Hh) as [_ ->].
      f_equal. now apply IH.
Qed.


Example safeBaseName_accents :
  safeBaseName nfdSample (baseName (js "Caf" ++ [233] ++ js "  men" ++ [252] ++ js ".txt"))
  = js "Cafe_menu".
Proof. vm_compute. reflexivity. Qed.

(** C7: with the company name and the file name fixed, two different
    millisecond timestamps give two different storage file names, and
    two different storage paths in any folder. *)
Theorem storageFileName_timestamp_distinct
  (normalizeNFD : jsstring -> jsstring)
  (folder companyName originalName : jsstring) (t1 t2 : Z) :
  t1 <> t2 ->
  storageFileName normalizeNFD companyName originalName t1
    <> storageFileName normalizeNFD companyName originalName t2
  /\ storagePath normalizeNFD folder companyName originalName t1
    <> storagePath normalizeNFD folder companyName originalName t2.
Proof.
  intros Hne.
  assert (K : storageFileName normalizeNFD companyName originalName t1
              <> storageFileName normalizeNFD companyName originalName t2).
  { unfold storageFileName. intros H.
    do 4 apply app_inv_head in H.
    apply app_inv_tail in H.
    apply Hne, numberToString_inj, H. }
  split; [exact K|].
  unfold storagePath. intros H. do 2 apply app_inv_head in H. now apply K.
Qed.

Lemma storageFileName_timestamp_distinct_witness :
  storageFileName nfdSample (js "Acme Co.") (js "Invoice #1.pdf") 1700000000000
    <> storageFileName nfdSample (js "Acme Co.") (js "Invoice #1.pdf") 1700000000001
  /\ storagePath nfdSample (js "commercialInvoice") (js "Acme Co.")
       (js "Invoice #1.pdf") 1700000000000
    <> storagePath nfdSample (js "commercialInvoice") (js "Acme Co.")
         (js "Invoice #1.pdf") 1700000000001.
Proof.
  apply (storageFileName_timestamp_distinct nfdSample
           (js "commercialInvoice") (js "Acme Co.") (js "Invoice #1.pdf")
           1700000000000 1700000000001).
  lia.
Defined.

(** C4: company "Acme Co.", file "Invoice #1.pdf", category
    "commercialInvoice", timestamp 1700000000000 give the storage path
    "commercialInvoice/acme_co__Invoice_1_1700000000000.pdf", NFD leaving
    the ASCII base name "Invoice #1" as it is. *)
Theorem storagePath_acme_invoice (normalizeNFD : jsstring -> jsstring) :
  normalizeNFD (js "Invoice #1") = js "Invoice #1" ->
  storagePath normalizeNFD (js "commercialInvoice") (js "Acme Co.")
    (js "Invoice #1.pdf") 1700000000000
  = js "commercialInvoice/acme_co__Invoice_1_1700000000000.pdf".
Proof.
  intros Hnfd. unfold storagePath, storageFileName, safeBaseName.
  replace (baseName (js "Invoice #1.pdf")) with (js "Invoice #1")
    by (vm_compute; reflexivity).
  rewrite Hnfd. vm_compute. reflexivity.
Qed.

Lemma storagePath_acme_invoice_witness :
  storagePath nfdSample (js "commercialInvoice") (js "Acme Co.")
    (js "Invoice #1.pdf") 1700000000000
  = js "commercialInvoice/acme_co__Invoice_1_1700000000000.pdf".
Proof.
  apply (storagePath_acme_invoice nfdSample). vm_compute. reflexivity.
Defined.

(** The same example through the route handler: the key it hands to the
    storage backend, which the backend returns as the stored path. *)
Example POST_acme_invoice :
  POST (serverAt 1700000000000)
    (mkRequest (Some (Orchestrator.uploadForm invoice "commercialInvoice" (js "Acme Co."))))
  = mkResponse 200
      (PathBody (js "commercialInvoice/acme_co__Invoice_1_1700000000000.pdf")).
Proof. vm_compute. reflexivity. Qed.

(** C3 at the file name "README", which has no ['.']: the extension the
    proxy computes is the whole name, not the empty string, the base name
    is empty, and the storage file name ends in ".README". *)
Theorem fileExtension_README :
  fileExtension (js "README") = js "README"
  /\ baseName (js "README") = []
  /\ storageFileName nfdSample (js "Acme Co.") (js "README") 1700000000000
     = js "acme_co___1700000000000.README".
Proof. vm_compute. repeat split; reflexivity. Qed.

(** ** The upload endpoint *)

Lemma falsy_missing v : falsy v = true <-> missing v.
Proof.
  unfold missing. destruct v as [[[|c s]|f]|]; cbn; split; intros H;
    try discriminate; try tauto; auto.
  - destruct H as [H|H]; discriminate.
  - destruct H as [H|H]; discriminate.
Qed.

Lemma POST_body_400 env request r :
  POST_body env request = Normal r -> status r = 400 ->
  body r = ErrorBody (js "Missing required fields")
  /\ exists fd, formData request = Some fd
       /\ (missing (get "file" fd) \/ missing (get "folder" fd)
           \/ missing (get "companyName" fd)).
Proof.
  unfold POST_body. destruct (formData request) as [fd|]; [|discriminate].
  cbn [fromOption bind].
  destruct (falsy (get "file" fd)) eqn:F1; cbn [orb].
  { intros H _. injection H as <-. split; [reflexivity|].
    exists fd. split; [reflexivity|]. left. now apply falsy_missing. }
  destruct (falsy (get "folder" fd)) eqn:F2; cbn [orb].
  { intros H _. injection H as <-. split; [reflexivity|].
    exists fd. split; [reflexivity|]. right; left. now apply falsy_missing. }
  destruct (falsy (get "companyName" fd)) eqn:F3.
  { intros H _. injection H as <-. split; [reflexivity|].
    exists fd. split; [reflexivity|]. right; right. now apply falsy_missing. }
  destruct (get "file" fd) as [fv|]; [|discriminate].
  destruct (get "folder" fd) as [dv|]; [|discriminate].
  destruct (get "companyName" fd) as [cv|]; [|discriminate].
  cbn [fromOption bind].
  destruct cv as [c|]; [|discriminate].
  destruct fv as [|f]; [discriminate|].
  cbn [asString asFile bind].
  destruct (storageUpload env _ _ _); intros H; try discriminate;
    injection H as <-; cbn; discriminate.
Qed.

(** C5, as the handler has it: the answer is 400, with the body
    "Missing required fields", exactly when the form data could be read
    and one of [file], [folder], [companyName] is not in it or is the
    empty string.  With a file, a non-empty folder and a non-empty
    company name the answer follows the storage write: 200 with the
    stored path, 500 with the backend's message when the backend reports
    an error, 500 with "Server error occurred" when the call throws. *)
Theorem POST_status (env : Upload.Env) (request : Request) :
  (status (POST env request) = 400 <->
     exists fd, formData request = Some fd
       /\ (missing (get "file" fd) \/ missing (get "folder" fd)
           \/ missing (get "companyName" fd)))
  /\ (status (POST env request) = 400 ->
      body (POST env request) = ErrorBody (js "Missing required fields"))
  /\ (forall fd f folder company,
        formData request = Some fd ->
        get "file" fd = Some (EntryFile f) ->
        get "folder" fd = Some (EntryString folder) -> folder <> [] ->
        get "companyName" fd = Some (EntryString company) -> company <> [] ->
        POST env request
        = match storageUpload env
                  (storagePath (normalizeNFD env) folder company (name f) (now env))
                  (bytes f) (type f) with
          | Stored p => mkResponse 200 (PathBody p)
          | StorageError message => mkResponse 500 (ErrorBody message)
          | StorageRejects =>
              mkResponse 500 (ErrorBody (js "Server error occurred"))
          end).
Proof.
  split; [split|split].
  - unfold POST. destruct (POST_body env request) as [r|] eqn:B; cbn [tryCatch].
    + intros H. exact (proj2 (POST_body_400 _ _ _ B H)).
    + cbn. discriminate.
  - intros (fd & Hfd & Hm). unfold POST, POST_body. rewrite Hfd.
    cbn [fromOption bind].
    assert (F : falsy (get "file" fd) || falsy (get "folder" fd)
                || falsy (get "companyName" fd) = true).
    { destruct Hm as [H|[H|H]]; apply falsy_missing in H; rewrite H;
        rewrite ?orb_true_r; reflexivity. }
    rewrite F. reflexivity.
  - unfold POST. destruct (POST_body env request) as [r|] eqn:B; cbn [tryCatch].
    + intros H. exact (proj1 (POST_body_400 _ _ _ B H)).
    + cbn. discriminate.
  - intros fd f folder company Hfd Hf Hd Hdne Hc Hcne.
    unfold POST, POST_body. rewrite Hfd. cbn [fromOption bind].
    rewrite Hf, Hd, Hc.
    destruct folder as [|d0 folder]; [contradiction|].
    destruct company as [|c0 company]; [contradiction|].
    cbn [falsy truthy negb orb fromOption bind asString asFile entryToString].
    destruct (storageUpload env _ _ _); reflexivity.
Qed.

(** With every field in the request and an empty company name the
    handler still answers 400. *)
Lemma POST_400_with_no_field_absent :
  let fd := Orchestrator.uploadForm invoice "msds" [] in
  ~ (status (POST (serverAt 1700000000000) (mkRequest (Some fd))) = 400
     <-> absent (get "file" fd) \/ absent (get "folder" fd)
         \/ absent (get "companyName" fd)).
Proof.
  intros fd [H _].
  assert (E : status (POST (serverAt 1700000000000) (mkRequest (Some fd))) = 400)
    by (vm_compute; reflexivity).
  destruct (H E) as [A|[A|A]]; discriminate A.
Qed.

Lemma POST_status_witness :
  status (POST (serverAt 1700000000000)
            (mkRequest (Some (Orchestrator.uploadForm invoice "msds" [])))) = 400
  /\ POST (brokenServerAt 1700000000000)
       (mkRequest (Some (Orchestrator.uploadForm invoice "msds" (js "Acme Co."))))
     = mkResponse 500 (ErrorBody (js "Bucket not found")).
Proof.
  split.
  - apply (proj1 (POST_status (serverAt 1700000000000)
                    (mkRequest (Some (Orchestrator.uploadForm invoice "msds" []))))).
    eexists. split; [reflexivity|]. right; right. right. reflexivity.
  - apply (proj2 (proj2 (POST_status (brokenServerAt 1700000000000)
                    (mkRequest (Some (Orchestrator.uploadForm invoice "msds" (js "Acme Co."))))))
             (Orchestrator.uploadForm invoice "msds" (js "Acme Co."))
             invoice (js "msds") (js "Acme Co."));
      first [reflexivity | discriminate].
Defined.

(** ** The submission orchestrator *)

Import Orchestrator.

Section Loops.

Variable env : Orchestrator.Env.

Lemma uploadOne_attempts key c st f :
  attempts (uploadOne env key c st f)
  = attempts st
      ++ [mkAttempt (uploadForm f key c)
            (fetch env (length (attempts st)) (uploadForm f key c))].
Proof.
  unfold uploadOne.
  destruct (truthyPath _); [destruct (documentPaths st !! key)|]; reflexivity.
Qed.

Lemma sentTo_uploadForm k key c f r :
  sentTo k (mkAttempt (uploadForm f key c) r) = bool_decide (key = k).
Proof.
  unfold sentTo. cbn.
  apply bool_decide_ext. split; [apply js_inj | now intros ->].
Qed.

Lemma pathsOf_snoc k tr a :
  pathsOf k (tr ++ [a])
  = pathsOf k tr
      ++ (if sentTo k a
          then match attemptPath a with Some p => [p] | None => [] end
          else []).
Proof.
  unfold pathsOf. rewrite List.filter_app, omap_app. f_equal.
  cbn. destruct (sentTo k a); [|reflexivity].
  cbn. destruct (attemptPath a); reflexivity.
Qed.

Lemma existsb_snoc {A} (p : A -> bool) l a :
  existsb p (l ++ [a]) = existsb p l || p a.
Proof. rewrite existsb_app. cbn. now rewrite orb_false_r. Qed.

Lemma uploadOne_coherent key c st f :
  In key documentKeys -> coherent env st -> coherent env (uploadOne env key c st f).
Proof.
  intros Hkey (Hdom & Hlk & Hany & Htr).
  pose proof (uploadOne_attempts key c st f) as Hatt.
  assert (Htr' : forall i a,
             (attempts st
                ++ [mkAttempt (uploadForm f key c)
                      (fetch env (length (attempts st)) (uploadForm f key c))])
               !! i = Some a ->
             received a = fetch env i (sent a)).
  { intros i a Hi. apply lookup_app_Some in Hi as [Hi|[Hge Hi]].
    - now apply Htr.
    - apply list_lookup_singleton_Some in Hi as [Hi <-]. cbn.
      f_equal. lia. }
  unfold coherent. rewrite Hatt. clear Hatt.
  unfold uploadOne.
  remember (fetch env (length (attempts st)) (uploadForm f key c)) as r eqn:Hr.
  clear Hr.
  destruct (truthyPath (uploadResult r)) as [path|] eqn:P.
  - rewrite (Hlk key Hkey). cbn [documentPaths anyUploadsSucceeded].
    split; [|split; [|split]].
    + rewrite dom_insert_L, Hdom.
      apply subseteq_union_1_L, singleton_subseteq_l.
      apply elem_of_list_to_set, list_elem_of_In, Hkey.
    + intros k Hk. rewrite pathsOf_snoc, sentTo_uploadForm.
      unfold attemptPath. cbn [received]. rewrite P.
      destruct (decide (key = k)) as [->|Hne].
      * rewrite lookup_insert_eq, bool_decide_eq_true_2; reflexivity.
      * rewrite lookup_insert_ne by exact Hne.
        rewrite bool_decide_eq_false_2 by exact Hne.
        rewrite app_nil_r. now apply Hlk.
    + rewrite existsb_snoc. unfold succeeded at 2, attemptPath.
      cbn [received]. rewrite P. now rewrite orb_true_r.
    + exact Htr'.
  - cbn [documentPaths anyUploadsSucceeded].
    split; [exact Hdom|split; [|split]].
    + intros k Hk. rewrite pathsOf_snoc. unfold attemptPath.
      cbn [received]. rewrite P.
      destruct (sentTo k _); rewrite app_nil_r; now apply Hlk.
    + rewrite existsb_snoc. unfold succeeded at 2, attemptPath.
      cbn [received]. rewrite P. now rewrite orb_false_r.
    + exact Htr'.
Qed.

End Loops.

Lemma documentKeys_NoDup : NoDup documentKeys.
Proof. apply (bool_decide_unpack _). vm_compute. reflexivity. Qed.

Lemma initPaths_lookup k : In k documentKeys -> initPaths !! k = Some [].
Proof.
  cbn. intros H.
  repeat (destruct H as [<-|H]; [vm_compute; reflexivity|]).
  contradiction.
Qed.

Lemma initPaths_dom : dom initPaths = (list_to_set documentKeys : gset string).
Proof.
  unfold initPaths. cbn [fold_left documentTypes fst].
  rewrite !dom_insert_L, dom_empty_L. cbn. set_solver.
Qed.

Lemma fold_left_invariant {S A} (P : S -> Prop) (f : S -> A -> S) l :
  (forall st x, In x l -> P st -> P (f st x)) ->
  forall st, P st -> P (fold_left f l st).
Proof.
  induction l as [|x l IH]; intros Hstep st Hst; [exact Hst|].
  cbn [fold_left]. apply IH.
  - intros st' y Hy. apply Hstep. now right.
  - apply Hstep; [now left | exact Hst].
Qed.

Lemma flat_map_nil {A B} (g : A -> list B) l :
  (forall y, In y l -> g y = []) -> flat_map g l = [].
Proof.
  induction l as [|y l IH]; intros H; [reflexivity|].
  cbn [flat_map]. rewrite (H y) by now left.
  apply IH. intros z Hz. apply H. now right.
Qed.

Lemma flat_map_only {A K B} (key : A -> K) (g : A -> list B) l x :
  List.NoDup (map key l) -> In x l ->
  (forall y, In y l -> key y <> key x -> g y = []) ->
  flat_map g l = g x.
Proof.
  induction l as [|y l IH]; [contradiction|].
  cbn [map flat_map]. intros Hnd Hin Hothers.
  inversion Hnd as [|? ? Hny Hnd']; subst.
  destruct Hin as [->|Hin].
  - rewrite (flat_map_nil g l); [apply app_nil_r|].
    intros z Hz. apply Hothers; [now right|].
    intros E. apply Hny. rewrite <- E. now apply in_map.
  - rewrite (Hothers y).
    + cbn. apply IH; [exact Hnd' | exact Hin |].
      intros z Hz. apply Hothers. now right.
    + now left.
    + intros E. apply Hny. rewrite E. now apply in_map.
Qed.

Section Submission.

Variable env : Orchestrator.Env.
Variable data : DocumentUploadFormValues.

Lemma processDoc_selected st doc :
  processDoc env data st doc
  = fold_left (uploadOne env (fst doc) (companyName data))
      (selectedFiles data (fst doc)) st.
Proof.
  unfold processDoc, selectedFiles.
  destruct (fileLists data !! fst doc); reflexivity.
Qed.

Lemma uploads_fold_sent key c files st :
  map sent (attempts (fold_left (uploadOne env key c) files st))
  = map sent (attempts st) ++ map (fun f => uploadForm f key c) files.
Proof.
  revert st. induction files as [|f files IH]; intros st; cbn [fold_left map].
  - now rewrite app_nil_r.
  - rewrite IH, uploadOne_attempts, map_app. cbn [map sent].
    now rewrite <- app_assoc.
Qed.

Lemma processDocs_sent docs st :
  map sent (attempts (fold_left (processDoc env data) docs st))
  = map sent (attempts st)
      ++ flat_map
           (fun doc => map (fun f => uploadForm f (fst doc) (companyName data))
                         (selectedFiles data (fst doc)))
           docs.
Proof.
  revert st. induction docs as [|doc docs IH]; intros st;
    cbn [fold_left flat_map].
  - now rewrite app_nil_r.
  - rewrite IH, processDoc_selected, uploads_fold_sent.
    now rewrite <- app_assoc.
Qed.

Lemma processFiles_sent :
  map sent (attempts (processFiles env data)) = allRequests data.
Proof. unfold processFiles. now rewrite processDocs_sent. Qed.

Lemma processFiles_coherent : coherent env (processFiles env data).
Proof.
  unfold processFiles. apply fold_left_invariant.
  - intros st doc Hdoc Hst. rewrite processDoc_selected.
    apply fold_left_invariant; [|exact Hst].
    intros st' f _. apply uploadOne_coherent.
    unfold documentKeys. now apply in_map.
  - unfold coherent. cbn [documentPaths anyUploadsSucceeded attempts].
    split; [apply initPaths_dom|]. split; [|split].
    + intros k Hk. rewrite initPaths_lookup by exact Hk. reflexivity.
    + reflexivity.
    + intros i a Hi. discriminate Hi.
Qed.

Lemma onSubmit_uploads :
  uploads (onSubmit env data) = attempts (processFiles env data).
Proof.
  unfold onSubmit. destruct (anyUploadsSucceeded _); [|reflexivity].
  destruct (insert env _); reflexivity.
Qed.

Lemma onSubmit_inserts :
  inserts (onSubmit env data)
  = if existsb succeeded (attempts (processFiles env data))
    then [mkRow (companyName data) (documentPaths (processFiles env data))
            (nowISO env)]
    else [].
Proof.
  destruct processFiles_coherent as (_ & _ & Hany & _).
  unfold onSubmit. rewrite <- Hany.
  destruct (anyUploadsSucceeded _); [|reflexivity].
  destruct (insert env _); reflexivity.
Qed.

End Submission.

Lemma pathsOf_failed k tr1 a tr2 :
  succeeded a = false ->
  pathsOf k (tr1 ++ a :: tr2) = pathsOf k tr1 ++ pathsOf k tr2.
Proof.
  intros Hf. unfold pathsOf. rewrite List.filter_app, omap_app. f_equal.
  cbn [List.filter]. destruct (sentTo k a); [|reflexivity].
  cbn. unfold succeeded in Hf. destruct (attemptPath a); [discriminate|].
  reflexivity.
Qed.

(** C1: when no upload of a submission succeeded, and only then,
    [onSubmit] does not call the database; it then shows the
    "Upload Failed" notification and leaves the form as it is.  A
    submission with no file chosen in any category is such a case. *)
Theorem onSubmit_total_failure (env : Orchestrator.Env)
  (data : DocumentUploadFormValues) :
  let out := onSubmit env data in
  (inserts out = [] <-> existsb succeeded (uploads out) = false)
  /\ (existsb succeeded (uploads out) = false ->
      toasts out = [uploadFailedToast] /\ formReset out = false)
  /\ (allRequests data = [] ->
      uploads out = [] /\ inserts out = [] /\ toasts out = [uploadFailedToast]).
Proof.
  cbv zeta.
  pose proof (onSubmit_uploads env data) as Hu.
  pose proof (onSubmit_inserts env data) as Hi.
  destruct (processFiles_coherent env data) as (_ & _ & Hany & _).
  assert (Hfail : existsb succeeded (uploads (onSubmit env data)) = false ->
                  toasts (onSubmit env data) = [uploadFailedToast]
                  /\ formReset (onSubmit env data) = false).
  { rewrite Hu, <- Hany. unfold onSubmit. intros ->. split; reflexivity. }
  split; [|split].
  - rewrite Hi, Hu.
    destruct (existsb succeeded _); split; intros H; try discriminate; reflexivity.
  - exact Hfail.
  - intros Hnone.
    assert (E : attempts (processFiles env data) = []).
    { apply (map_eq_nil sent). now rewrite processFiles_sent. }
    split; [rewrite Hu; exact E|].
    split; [rewrite Hi, E; reflexivity|].
    apply Hfail. rewrite Hu, E. reflexivity.
Qed.

Lemma onSubmit_total_failure_witness :
  inserts (onSubmit brokenPortal oneInvoice) = []
  /\ toasts (onSubmit brokenPortal oneInvoice) = [uploadFailedToast].
Proof.
  destruct (onSubmit_total_failure brokenPortal oneInvoice) as (H1 & H2 & _).
  split.
  - apply H1. vm_compute. reflexivity.
  - apply H2. vm_compute. reflexivity.
Defined.

Lemma uploadResult_failure r :
  (r = FetchRejects
   \/ (exists st json, r = FetchResponse st json /\ ok st = false)
   \/ (exists st, r = FetchResponse st None)) ->
  uploadResult r = None.
Proof.
  intros [->|[(st & json & -> & Hok)|(st & ->)]]; unfold uploadResult.
  - reflexivity.
  - now rewrite Hok.
  - destruct (ok st); reflexivity.
Qed.

(** C8: every chosen file of every category is sent, in order, whatever
    happened to the files before it; each category's list holds the
    paths of its successful attempts in order, so an attempt that failed
    (rejected request, response that is not ok, body that is not JSON)
    adds no path anywhere and the attempts after it are still made and
    collected. *)
Theorem failed_upload_is_skipped (env : Orchestrator.Env)
  (data : DocumentUploadFormValues) :
  let st := processFiles env data in
  map sent (attempts st) = allRequests data
  /\ uploads (onSubmit env data) = attempts st
  /\ (forall i a, attempts st !! i = Some a -> received a = fetch env i (sent a))
  /\ (forall k, In k documentKeys ->
        documentPaths st !! k = Some (pathsOf k (attempts st)))
  /\ (forall tr1 a tr2 k,
        attempts st = tr1 ++ a :: tr2 -> succeeded a = false ->
        In k documentKeys ->
        documentPaths st !! k = Some (pathsOf k tr1 ++ pathsOf k tr2))
  /\ (forall a,
        (received a = FetchRejects
         \/ (exists s json, received a = FetchResponse s json /\ ok s = false)
         \/ (exists s, received a = FetchResponse s None)) ->
        succeeded a = false).
Proof.
  cbv zeta.
  destruct (processFiles_coherent env data) as (_ & Hlk & _ & Htr).
  split; [apply processFiles_sent|].
  split; [apply onSubmit_uploads|].
  split; [exact Htr|]. split; [exact Hlk|]. split.
  - intros tr1 a tr2 k Hsplit Hfail Hk.
    rewrite (Hlk k Hk), Hsplit. f_equal. now apply pathsOf_failed.
  - intros a Ha. unfold succeeded, attemptPath.
    now rewrite (uploadResult_failure _ Ha).
Qed.

Lemma failed_upload_is_skipped_witness :
  map sent (attempts (processFiles flakyPortal threeFiles))
  = [ uploadForm readme "msds" (js "Acme Co.");
      uploadForm invoice "msds" (js "Acme Co.");
      uploadForm invoice "commercialInvoice" (js "Acme Co.") ]
  /\ documentPaths (processFiles flakyPortal threeFiles) !! "msds"%string
     = Some [js "msds/acme_co__Invoice_1_1700000000001.pdf"]
  /\ documentPaths (processFiles flakyPortal threeFiles) !! "commercialInvoice"%string
     = Some [js "commercialInvoice/acme_co__Invoice_1_1700000000002.pdf"].
Proof.
  destruct (failed_upload_is_skipped flakyPortal threeFiles)
    as (H1 & _ & _ & _ & H5 & _).
  split; [rewrite H1; vm_compute; reflexivity|].
  assert (E : attempts (processFiles flakyPortal threeFiles)
              = [] ++ mkAttempt (uploadForm readme "msds" (js "Acme Co.")) FetchRejects
                   :: skipn 1 (attempts (processFiles flakyPortal threeFiles)))
    by (vm_compute; reflexivity).
  split.
  - rewrite (H5 _ _ _ "msds"%string E); [vm_compute; reflexivity | reflexivity |].
    cbn. tauto.
  - rewrite (H5 _ _ _ "commercialInvoice"%string E);
      [vm_compute; reflexivity | reflexivity |].
    cbn. tauto.
Defined.

Lemma documentKeys_size (m : gmap string (list jsstring)) :
  dom m = (list_to_set documentKeys : gset string) -> size m = 12%nat.
Proof.
  intros H. rewrite <- size_dom, H.
  rewrite size_list_to_set by apply documentKeys_NoDup. reflexivity.
Qed.

Lemma one_file_requests data k f :
  In k documentKeys ->
  fileLists data !! k = Some [f] ->
  (forall k', In k' documentKeys -> k' <> k -> selectedFiles data k' = []) ->
  allRequests data = [uploadForm f k (companyName data)].
Proof.
  intros Hk Hf Hothers. unfold documentKeys in Hk.
  apply in_map_iff in Hk as (doc & <- & Hdoc).
  unfold allRequests.
  rewrite (flat_map_only fst _ documentTypes doc).
  - unfold selectedFiles. rewrite Hf. reflexivity.
  - apply NoDup_ListNoDup, documentKeys_NoDup.
  - exact Hdoc.
  - intros y Hy Hne. rewrite Hothers; [reflexivity| |exact Hne].
    unfold documentKeys. now apply in_map.
Qed.

(** C2: a row that [onSubmit] hands to the database has exactly the
    twelve category keys in [document_paths].  When one category holds
    one file, its upload succeeds with path [p] and the other eleven
    categories hold no file, the one row written has the singleton [[p]]
    under that category and the empty list under each of the other
    eleven. *)
Theorem written_row_has_twelve_keys (env : Orchestrator.Env)
  (data : DocumentUploadFormValues) :
  (forall row, In row (inserts (onSubmit env data)) ->
     dom (document_paths row) = (list_to_set documentKeys : gset string)
     /\ size (document_paths row) = 12%nat
     /\ forall k, In k documentKeys -> is_Some (document_paths row !! k))
  /\ (forall k f p,
        In k documentKeys ->
        fileLists data !! k = Some [f] ->
        (forall k', In k' documentKeys -> k' <> k -> selectedFiles data k' = []) ->
        truthyPath (uploadResult (fetch env 0 (uploadForm f k (companyName data))))
          = Some p ->
        exists row,
          inserts (onSubmit env data) = [row]
          /\ company_name row = companyName data
          /\ document_paths row !! k = Some [p]
          /\ (forall k', In k' documentKeys -> k' <> k ->
                document_paths row !! k' = Some [])
          /\ size (document_paths row) = 12%nat).
Proof.
  destruct (processFiles_coherent env data) as (Hdom & Hlk & Hany & Htr).
  pose proof (onSubmit_inserts env data) as Hi.
  split.
  - intros row Hrow. rewrite Hi in Hrow.
    destruct (existsb succeeded _); [|contradiction].
    destruct Hrow as [<-|[]]. cbn [document_paths].
    split; [exact Hdom|]. split; [now apply documentKeys_size|].
    intros k Hk. rewrite (Hlk k Hk). eauto.
  - intros k f p Hk Hf Hothers Hp.
    pose proof (processFiles_sent env data) as Hsent.
    rewrite (one_file_requests data k f Hk Hf Hothers) in Hsent.
    destruct (attempts (processFiles env data)) as [|a [|b tr]] eqn:Ha;
      try discriminate Hsent.
    injection Hsent as Hsent.
    assert (Hrecv : received a = fetch env 0 (sent a))
      by (apply Htr; reflexivity).
    assert (Hpath : attemptPath a = Some p).
    { unfold attemptPath. rewrite Hrecv, Hsent. exact Hp. }
    assert (Hsucc : succeeded a = true) by (unfold succeeded; now rewrite Hpath).
    rewrite Hi. cbn [existsb]. rewrite Hsucc. cbn [orb].
    eexists. split; [reflexivity|]. cbn [company_name document_paths].
    split; [reflexivity|].
    assert (Hsel : forall k', sentTo k' a = bool_decide (k = k')).
    { intros k'. destruct a as [s r]. cbn in Hsent. subst s.
      apply sentTo_uploadForm. }
    split; [|split].
    + rewrite (Hlk k Hk). unfold pathsOf. cbn [List.filter].
      rewrite Hsel, bool_decide_eq_true_2 by reflexivity.
      cbn. now rewrite Hpath.
    + intros k' Hk' Hne. rewrite (Hlk k' Hk'). unfold pathsOf. cbn [List.filter].
      rewrite Hsel, bool_decide_eq_false_2 by (intros E; now apply Hne).
      reflexivity.
    + now apply documentKeys_size.
Qed.

Lemma written_row_has_twelve_keys_witness :
  exists row,
    inserts (onSubmit workingPortal oneInvoice) = [row]
    /\ company_name row = js "Acme Co."
    /\ document_paths row !! "commercialInvoice"%string = Some [invoicePath]
    /\ (forall k', In k' documentKeys -> k' <> "commercialInvoice"%string ->
          document_paths row !! k' = Some [])
    /\ size (document_paths row) = 12%nat.
Proof.
  apply (proj2 (written_row_has_twelve_keys workingPortal oneInvoice)
           "commercialInvoice"%string invoice invoicePath).
  - cbn. tauto.
  - reflexivity.
  - intros k' _ Hne. unfold selectedFiles, oneInvoice. cbn [fileLists].
    rewrite lookup_singleton_ne by (intros E; now apply Hne). reflexivity.
  - vm_compute. reflexivity.
Defined.

(** ** The submission viewer *)

Import Viewer.

Section Rendering.

Variable toUpperCase : jsstring -> jsstring.
Variable storagePublicUrl : jsstring -> option jsstring.

Abbreviation renderCategory := (Viewer.renderCategory toUpperCase storagePublicUrl).
Abbreviation renderDocuments := (Viewer.renderDocuments toUpperCase storagePublicUrl).

Lemma hasPaths_noPaths p : hasPaths p = negb (noPaths p).
Proof. destruct p as [[|x l]|]; reflexivity. Qed.

(** After the filter no [paths.map] meets [null]. *)
Lemma render_filtered entries :
  exists groups,
    mapM renderCategory (List.filter (fun e => hasPaths (snd e)) entries)
    = Normal groups
    /\ categoryKeys groups
       = map fst (List.filter (fun e => hasPaths (snd e)) entries)
    /\ paragraphs groups = [].
Proof.
  induction entries as [|[k p] entries (groups & Hg & Hk & Hp)].
  - exists []. repeat split.
  - cbn [List.filter snd].
    destruct (hasPaths p) eqn:H; [|exists groups; repeat split; assumption].
    destruct p as [[|x l]|]; try discriminate H.
    cbn [mapM]. unfold Viewer.renderCategory at 1. cbn [snd fst fromOption bind].
    rewrite Hg. cbn [bind].
    eexists. split; [reflexivity|].
    split; [|exact Hp].
    cbn [categoryKeys flat_map app map fst]. f_equal. exact Hk.
Qed.

Lemma filter_all_empty (entries : list (jsstring * option (list jsstring))) :
  forallb noPaths (map snd entries) = true ->
  List.filter (fun e => hasPaths (snd e)) entries = [].
Proof.
  induction entries as [|[k p] entries IH]; [reflexivity|].
  cbn. rewrite hasPaths_noPaths.
  destruct (noPaths p); cbn; [exact IH | discriminate].
Qed.

Lemma categoryKeys_app l1 l2 :
  categoryKeys (l1 ++ l2) = categoryKeys l1 ++ categoryKeys l2.
Proof. unfold categoryKeys. apply flat_map_app. Qed.

Lemma paragraphs_app l1 l2 :
  paragraphs (l1 ++ l2) = paragraphs l1 ++ paragraphs l2.
Proof. unfold paragraphs. apply flat_map_app. Qed.

End Rendering.

Section ViewerClaims.

Variable toUpperCase : jsstring -> jsstring.
Variable storagePublicUrl : jsstring -> option jsstring.

(** C9: rendering a submission never throws; the categories shown are
    those of the entries with a non-empty path list, in the order of
    the entries, so a category whose list is empty (or [null]) is left
    out; when every category is empty exactly one "no documents"
    paragraph is shown and no category, and when some category has a
    path no such paragraph is shown. *)
Theorem viewer_omits_empty_categories (submission : Submission) :
  exists d,
    renderDocuments toUpperCase storagePublicUrl submission = Normal d
    /\ shownCategories d
       = map fst (List.filter (fun e => hasPaths (snd e)) (entriesOf submission))
    /\ (forall k, In k (shownCategories d) ->
          exists x paths, In (k, Some (x :: paths)) (entriesOf submission))
    /\ (forallb noPaths (map snd (entriesOf submission)) = true ->
          shownCategories d = [] /\ exists m, shownPlaceholders d = [m])
    /\ (forallb noPaths (map snd (entriesOf submission)) = false ->
          shownPlaceholders d = []).
Proof.
  assert (Hin : forall (entries : list (jsstring * option (list jsstring))) k,
             In k (map fst (List.filter (fun e => hasPaths (snd e)) entries)) ->
             exists x paths, In (k, Some (x :: paths)) entries).
  { intros entries k Hk. apply in_map_iff in Hk as ([k' p] & <- & He).
    apply List.filter_In in He as [He Hp]. cbn [snd fst] in *.
    destruct p as [[|x l]|]; try discriminate Hp. eauto. }
  unfold Viewer.renderDocuments, entriesOf.
  destruct (document_paths submission) as [[|e m]|] eqn:Hdp.
  - eexists. split; [reflexivity|]. cbn.
    repeat split; try tauto; try discriminate. eauto.
  - set (entries := e :: m).
    cbn [objectKeys fromOption bind map length Nat.eqb objectEntries objectValues].
    fold entries.
    destruct (render_filtered toUpperCase storagePublicUrl entries)
      as (groups & Hg & Hk & Hp).
    rewrite Hg. cbn [bind].
    eexists. split; [reflexivity|].
    cbn [shownCategories shownPlaceholders].
    rewrite categoryKeys_app, paragraphs_app, Hk, Hp.
    assert (Hc : categoryKeys
                   (if forallb noPaths (map snd entries)
                    then [Paragraph "No documents found for this submission type."]
                    else []) = [])
      by (destruct (forallb noPaths (map snd entries)); reflexivity).
    rewrite Hc, app_nil_r. split; [reflexivity|].
    split; [apply Hin|]. split.
    + intros Hall. rewrite Hall, (filter_all_empty _ Hall).
      split; [reflexivity|]. eexists. reflexivity.
    + intros Hsome. rewrite Hsome. reflexivity.
  - eexists. split; [reflexivity|]. cbn.
    repeat split; try tauto; try discriminate. eauto.
Qed.

(** C10: for a submission whose [document_paths] is [null] or an object
    without keys, rendering does not throw and gives the paragraph "No
    documents found for this submission."; the mapping is not read
    further. *)
Theorem viewer_null_mapping (submission : Submission) :
  document_paths submission = None \/ document_paths submission = Some [] ->
  renderDocuments toUpperCase storagePublicUrl submission
  = Normal (NoDocuments "No documents found for this submission.").
Proof.
  unfold Viewer.renderDocuments. intros [->| ->]; reflexivity.
Qed.

End ViewerClaims.

Lemma viewer_omits_empty_categories_witness :
  exists d,
    renderDocuments upperSample publicUrlSample blankSubmission = Normal d
    /\ shownCategories d = []
    /\ exists m, shownPlaceholders d = [m].
Proof.
  destruct (viewer_omits_empty_categories upperSample publicUrlSample blankSubmission)
    as (d & H1 & _ & _ & H4 & _).
  exists d. split; [exact H1|]. apply H4. reflexivity.
Defined.

Lemma viewer_null_mapping_witness :
  renderDocuments upperSample publicUrlSample nullSubmission
    = Normal (NoDocuments "No documents found for this submission.")
  /\ renderDocuments upperSample publicUrlSample emptySubmission
    = Normal (NoDocuments "No documents found for this submission.").
Proof.
  split.
  - apply (viewer_null_mapping upperSample publicUrlSample nullSubmission).
    left. reflexivity.
  - apply (viewer_null_mapping upperSample publicUrlSample emptySubmission).
    right. reflexivity.
Defined.

Example render_invoiceSubmission :
  renderDocuments upperSample publicUrlSample invoiceSubmission
  = Normal
      (DocumentList
         [Category (js "commercialInvoice") (js "Commercial Invoice")
            [mkLink
               (js "commercialInvoice/acme_co__Invoice_1_1700000000000.pdf")
               (js "https://storage.example/customer-documents/commercialInvoice/acme_co__Invoice_1_1700000000000.pdf")
               (js "acme_co__Invoice_1_1700000000000.pdf")]]).
Proof. vm_compute. reflexivity. Qed.

Example numberToString_samples :
  numberToString 1700000000000 = js "1700000000000"
  /\ numberToString 0 = js "0"
  /\ numberToString (-5) = js "-5".
Proof. vm_compute. repeat split; reflexivity. Qed.

Example formatDocType_samples :
  formatDocType upperSample (js "commercialInvoice") = js "Commercial Invoice"
  /\ formatDocType upperSample (js "idCardCopy") = js "Id Card Copy"
  /\ formatDocType upperSample (js "tk10") = js "Tk10".
Proof. vm_compute. repeat split; reflexivity. Qed.

(** * Further properties of the code *)

(** ** File names *)

(** A string with the character [c] in it is what stands before the
    last [c], the [c], and what stands behind it. *)
Lemma lastIndexOf_cut c s :
  0 <= lastIndexOf c s ->
  s = take (Z.to_nat (lastIndexOf c s)) s ++ [c]
        ++ drop (Z.to_nat (lastIndexOf c s + 1)) s
  /\ ~ In c (drop (Z.to_nat (lastIndexOf c s + 1)) s).
Proof.
  induction s as [|x xs IH]; cbn [lastIndexOf]; [lia|].
  pose proof (lastIndexOf_range c xs) as R.
  destruct (0 <=? lastIndexOf c xs) eqn:E.
  - apply Z.leb_le in E. intros _. destruct (IH E) as [Hcut Hno].
    replace (Z.to_nat (1 + lastIndexOf c xs)) with (S (Z.to_nat (lastIndexOf c xs))) by lia.
    replace (Z.to_nat (1 + lastIndexOf c xs + 1))
      with (S (Z.to_nat (lastIndexOf c xs + 1))) by lia.
    cbn [take drop]. split; [|exact Hno].
    cbn. f_equal. exact Hcut.
  - apply Z.leb_gt in E. assert (N : lastIndexOf c xs = -1) by lia.
    destruct (x =? c) eqn:X; [|lia]. intros _.
    apply Z.eqb_eq in X. subst x. cbn. split; [reflexivity|].
    now apply lastIndexOf_absent.
Qed.

Lemma lastIndexOf_present c s : In c s -> 0 <= lastIndexOf c s.
Proof.
  intros Hin. pose proof (lastIndexOf_range c s) as R.
  destruct (Z.eq_dec (lastIndexOf c s) (-1)) as [E|E]; [|lia].
  apply lastIndexOf_absent in E. contradiction.
Qed.

Lemma substring_from_start b s :
  0 <= b <= Z.of_nat (length s) -> substring 0 b s = take (Z.to_nat b) s.
Proof.
  intros Hb. unfold substring, clamp.
  replace (Z.to_nat (Z.max 0 (Z.min 0 (Z.of_nat (length s))))) with 0%nat by lia.
  replace (Z.to_nat (Z.max 0 (Z.min b (Z.of_nat (length s))))) with (Z.to_nat b) by lia.
  rewrite Nat.min_0_l, Nat.max_0_l, Nat.sub_0_r. reflexivity.
Qed.

(** A file name with a ['.'] in it is cut at the last ['.']: the
    extension is everything behind it, unchanged, it has no ['.'] of its
    own, and the storage file name ends in ['.'] and that extension. *)
Theorem extension_is_text_after_last_dot (normalizeNFD : jsstring -> jsstring)
  (companyName originalName : jsstring) (timestamp : Z) :
  In dot originalName ->
  originalName
  = take (Z.to_nat (lastIndexOf dot originalName)) originalName
      ++ [dot] ++ fileExtension originalName
  /\ ~ In dot (fileExtension originalName)
  /\ exists stem,
       storageFileName normalizeNFD companyName originalName timestamp
       = stem ++ [dot] ++ fileExtension originalName.
Proof.
  intros Hin. apply lastIndexOf_present in Hin.
  destruct (lastIndexOf_cut dot originalName Hin) as [Hcut Hno].
  rewrite fileExtension_suffix. split; [exact Hcut|]. split; [exact Hno|].
  unfold storageFileName. rewrite fileExtension_suffix.
  eexists. rewrite !app_assoc. reflexivity.
Qed.

Lemma extension_is_text_after_last_dot_witness :
  js "archive.tar.GZ"
  = take (Z.to_nat (lastIndexOf dot (js "archive.tar.GZ"))) (js "archive.tar.GZ")
      ++ [dot] ++ fileExtension (js "archive.tar.GZ")
  /\ ~ In dot (fileExtension (js "archive.tar.GZ"))
  /\ exists stem,
       storageFileName nfdSample (js "Acme Co.") (js "archive.tar.GZ") 1700000000000
       = stem ++ [dot] ++ fileExtension (js "archive.tar.GZ").
Proof.
  apply (extension_is_text_after_last_dot nfdSample (js "Acme Co.")
           (js "archive.tar.GZ") 1700000000000).
  vm_compute. tauto.
Defined.

(** When the last ['.'] is not the first character, the base name is the
    text before it, so the name is base name, ['.'], extension. *)
Theorem baseName_is_text_before_last_dot (originalName : jsstring) :
  0 < lastIndexOf dot originalName ->
  baseName originalName
  = take (Z.to_nat (lastIndexOf dot originalName)) originalName
  /\ originalName = baseName originalName ++ [dot] ++ fileExtension originalName
  /\ baseName originalName <> [].
Proof.
  intros Hpos.
  pose proof (lastIndexOf_range dot originalName) as R.
  assert (Hb : baseName originalName
               = take (Z.to_nat (lastIndexOf dot originalName)) originalName).
  { unfold baseName, orNumber.
    destruct (lastIndexOf dot originalName =? 0) eqn:E;
      [apply Z.eqb_eq in E; lia|].
    apply substring_from_start. lia. }
  split; [exact Hb|]. split.
  - rewrite Hb, fileExtension_suffix.
    apply (lastIndexOf_cut dot originalName). lia.
  - rewrite Hb. destruct originalName as [|x xs]; [cbn in Hpos; lia|].
    replace (Z.to_nat (lastIndexOf dot (x :: xs)))
      with (S (Z.to_nat (lastIndexOf dot (x :: xs) - 1))) by lia.
    discriminate.
Qed.

Lemma baseName_is_text_before_last_dot_witness :
  baseName (js "archive.tar.GZ")
  = take (Z.to_nat (lastIndexOf dot (js "archive.tar.GZ"))) (js "archive.tar.GZ")
  /\ js "archive.tar.GZ"
     = baseName (js "archive.tar.GZ") ++ [dot] ++ fileExtension (js "archive.tar.GZ")
  /\ baseName (js "archive.tar.GZ") <> [].
Proof.
  apply (baseName_is_text_before_last_dot (js "archive.tar.GZ")).
  vm_compute. reflexivity.
Defined.

(** A name whose only ['.'] is its first character (".env") keeps the
    whole name, ['.'] included, as base name, because [0 || length] is
    [length]; the extension is the name without the ['.']. *)
Theorem baseName_of_dot_file (originalName : jsstring) :
  lastIndexOf dot originalName = 0 ->
  baseName originalName = originalName
  /\ originalName = dot :: fileExtension originalName.
Proof.
  intros H0. split.
  - unfold baseName, orNumber. rewrite H0.
    change (0 =? 0) with true. cbn iota.
    rewrite substring_from_start by lia.
    rewrite Nat2Z.id. apply firstn_all.
  - destruct (lastIndexOf_cut dot originalName) as [Hcut _]; [lia|].
    rewrite fileExtension_suffix. rewrite H0 in Hcut |- *. exact Hcut.
Qed.

Lemma baseName_of_dot_file_witness :
  baseName (js ".env") = js ".env"
  /\ js ".env" = dot :: fileExtension (js ".env").
Proof.
  apply (baseName_of_dot_file (js ".env")). vm_compute. reflexivity.
Defined.

(** ** Company names and underscores *)

(** The company part of a storage key has as many code units as the
    company name, all of them lower-case letters, digits or ['_'];
    sanitizing it again changes nothing. *)
Theorem safeCompanyName_shape (companyName : jsstring) :
  length (safeCompanyName companyName) = length companyName
  /\ Forall (fun c => isLower c || isDigit c || (c =? underscore) = true)
       (safeCompanyName companyName)
  /\ safeCompanyName (safeCompanyName companyName) = safeCompanyName companyName.
Proof.
  unfold safeCompanyName, toLowerCaseAscii, replaceNonAlnum.
  split; [now rewrite !length_map|]. split.
  - induction companyName as [|c s IH]; cbn [map]; constructor; [|exact IH].
    unfold isAlnum, isLower, isUpper, isDigit, underscore.
    repeat match goal with
           | |- context [if ?b then _ else _] => destruct b eqn:?
           end; lia.
  - induction companyName as [|c s IH]; cbn [map]; [reflexivity|].
    f_equal; [|exact IH].
    unfold isAlnum, isLower, isUpper, isDigit, underscore.
    repeat match goal with
           | |- context [if ?b then _ else _] => destruct b eqn:?
           end; lia.
Qed.

Lemma collapseUnderscores_fixed s :
  noUnderscoreRun s -> collapseUnderscores s = s.
Proof.
  induction 1 as [|c|c d s Hcd _ IH].
  - reflexivity.
  - cbn. destruct (c =? underscore); reflexivity.
  - change (collapseUnderscores (c :: d :: s))
      with (if c =? underscore
            then if d =? underscore then collapseUnderscores (d :: s)
                 else c :: collapseUnderscores (d :: s)
            else c :: collapseUnderscores (d :: s)).
    rewrite IH.
    destruct (c =? underscore) eqn:C; [|reflexivity].
    destruct (d =? underscore) eqn:D; [|reflexivity].
    apply Z.eqb_eq in C, D. tauto.
Qed.

(** Collapsing the runs of ['_'] keeps every other code unit, in order,
    never makes the string longer, and has nothing left to do on its own
    result. *)
Theorem collapseUnderscores_keeps_the_rest (s : jsstring) :
  List.filter (fun c => negb (c =? underscore)) (collapseUnderscores s)
  = List.filter (fun c => negb (c =? underscore)) s
  /\ (length (collapseUnderscores s) <= length s)%nat
  /\ collapseUnderscores (collapseUnderscores s) = collapseUnderscores s.
Proof.
  split; [|split].
  - induction s as [|x xs IH]; [reflexivity|].
    cbn [collapseUnderscores].
    destruct (x =? underscore) eqn:X.
    + destruct xs as [|y ys]; [reflexivity|].
      destruct (y =? underscore) eqn:Y.
      * rewrite IH. cbn [List.filter]. now rewrite X.
      * cbn [List.filter]. rewrite X. exact IH.
    + cbn [List.filter]. rewrite X. cbn. now rewrite IH.
  - induction s as [|x xs IH]; [reflexivity|].
    cbn [collapseUnderscores].
    destruct (x =? underscore).
    + destruct xs as [|y ys]; [reflexivity|].
      destruct (y =? underscore); cbn [length] in *; lia.
    + cbn [length]. lia.
  - apply collapseUnderscores_fixed, collapseUnderscores_no_run.
Qed.

(** ** The storage key up to the extension *)

Lemma pretty_N_go_digits (P : ascii -> Prop) :
  (forall d, (d < 10)%N -> P (pretty_N_char d)) ->
  forall x s,
    Forall P (list_ascii_of_string s) ->
    Forall P (list_ascii_of_string (pretty_N_go x s)).
Proof.
  intros Hd x. induction (N.lt_wf_0 x) as [x _ IH]. intros s Hs.
  destruct (N.eq_dec x 0%N) as [->|Hx].
  - now rewrite pretty_N_go_0.
  - rewrite pretty_N_go_step by lia. apply IH.
    + apply N.div_lt; lia.
    + cbn. constructor; [|exact Hs]. apply Hd. apply N.mod_lt. lia.
Qed.

(** A number prints as digits, behind a ['-'] when it is negative. *)
Lemma numberToString_chars n :
  Forall (fun c => isDigit c || (c =? hyphen) = true) (numberToString n).
Proof.
  unfold numberToString, js. apply Forall_map.
  set (P := fun a : ascii =>
              isDigit (Z.of_N (N_of_ascii a))
              || (Z.of_N (N_of_ascii a) =? hyphen) = true).
  assert (Hd : forall d, (d < 10)%N -> P (pretty_N_char d)).
  { intros d Hlt. unfold P.
    assert (Hc : (d = 0 \/ d = 1 \/ d = 2 \/ d = 3 \/ d = 4 \/ d = 5
                  \/ d = 6 \/ d = 7 \/ d = 8 \/ d = 9)%N) by lia.
    repeat (destruct Hc as [->|Hc]; [vm_compute; reflexivity|]).
    subst d. vm_compute. reflexivity. }
  assert (HN : forall x : N, Forall P (list_ascii_of_string (pretty x))).
  { intros x. unfold pretty, pretty_N. case_decide.
    - repeat constructor.
    - apply pretty_N_go_digits; [exact Hd | constructor]. }
  destruct n as [|p|p]; unfold pretty, pretty_Z.
  - repeat constructor.
  - apply (HN (Npos p)).
  - cbn. constructor; [reflexivity|]. apply (HN (Npos p)).
Qed.

(** Everything in the storage file name before the extension is a code
    unit of [a-zA-Z0-9._-]; the extension is copied as it is, so a ['/']
    is in the file name exactly when it is in the extension. *)
Theorem storageFileName_clean_up_to_extension
  (normalizeNFD : jsstring -> jsstring)
  (companyName originalName : jsstring) (timestamp : Z) :
  exists stem,
    storageFileName normalizeNFD companyName originalName timestamp
    = stem ++ fileExtension originalName
    /\ Forall (fun c => isAllowed c = true) stem
    /\ (In slash (storageFileName normalizeNFD companyName originalName timestamp)
        <-> In slash (fileExtension originalName)).
Proof.
  assert (Hstem : Forall (fun c => isAllowed c = true)
                    (safeCompanyName companyName ++ [underscore]
                       ++ safeBaseName normalizeNFD (baseName originalName)
                       ++ [underscore] ++ numberToString timestamp ++ [dot])).
  { repeat apply Forall_app_2.
    - destruct (safeCompanyName_shape companyName) as (_ & H & _).
      eapply Forall_impl; [exact H|]. intros c. cbn beta.
      unfold isAllowed, isAlnum. intros Hc.
      destruct (isLower c), (isDigit c), (c =? underscore);
        try discriminate Hc; rewrite ?orb_true_r; reflexivity.
    - repeat constructor.
    - apply safeBaseName_allowed.
    - repeat constructor.
    - eapply Forall_impl; [apply numberToString_chars|]. intros c. cbn beta.
      unfold isAllowed, isAlnum. intros Hc.
      destruct (isDigit c), (c =? hyphen);
        try discriminate Hc; rewrite ?orb_true_r; reflexivity.
    - repeat constructor. }
  eexists. split; [|split; [exact Hstem|]].
  - unfold storageFileName. rewrite !app_assoc. reflexivity.
  - unfold storageFileName.
    rewrite !app_assoc, in_app_iff, <- !app_assoc.
    split; [|tauto]. intros [H|H]; [|exact H]. exfalso.
    rewrite List.Forall_forall in Hstem. specialize (Hstem _ H).
    vm_compute in Hstem. discriminate.
Qed.

Example storageFileName_slash_in_extension :
  storageFileName nfdSample (js "Acme Co.") (js "notes.a/b") 1700000000000
  = js "acme_co__notes_1700000000000.a/b".
Proof. vm_compute. reflexivity. Qed.

(** ** What the endpoint answers *)

(** The handler on a form with a file, a non-empty folder and a
    non-empty company name. *)
Lemma POST_complete_form env fd f folder company :
  get "file" fd = Some (EntryFile f) ->
  get "folder" fd = Some (EntryString folder) -> folder <> [] ->
  get "companyName" fd = Some (EntryString company) -> company <> [] ->
  POST_body env (mkRequest (Some fd))
  = match storageUpload env
            (storagePath (Upload.normalizeNFD env) folder company (name f)
               (Upload.now env))
            (bytes f) (type f) with
    | Stored p => Normal (mkResponse 200 (PathBody p))
    | StorageError message => Normal (mkResponse 500 (ErrorBody message))
    | StorageRejects => Throw
    end.
Proof.
  intros Hf Hd Hdne Hc Hcne. unfold POST_body.
  cbn [formData fromOption bind]. rewrite Hf, Hd, Hc.
  destruct folder as [|d0 folder]; [contradiction|].
  destruct company as [|c0 company]; [contradiction|].
  cbn [falsy truthy negb orb fromOption bind asString asFile entryToString].
  destruct (storageUpload env _ _ _); reflexivity.
Qed.

Lemma POST_body_cases env request r :
  POST_body env request = Normal r ->
  r = mkResponse 400 (ErrorBody (js "Missing required fields"))
  \/ (exists message, r = mkResponse 500 (ErrorBody message))
  \/ (exists p path content contentType,
        r = mkResponse 200 (PathBody p)
        /\ storageUpload env path content contentType = Stored p).
Proof.
  unfold POST_body. destruct (formData request) as [fd|]; [|discriminate].
  cbn [fromOption bind].
  destruct (falsy (get "file" fd) || falsy (get "folder" fd)
            || falsy (get "companyName" fd)).
  { intros H. injection H as <-. now left. }
  destruct (get "file" fd) as [fv|]; [|discriminate].
  destruct (get "folder" fd) as [dv|]; [|discriminate].
  destruct (get "companyName" fd) as [cv|]; [|discriminate].
  cbn [fromOption bind].
  destruct cv as [c|]; [|discriminate].
  destruct fv as [|f]; [discriminate|].
  cbn [asString asFile bind].
  destruct (storageUpload env _ _ _) eqn:S; intros H; try discriminate;
    injection H as <-.
  - right; right. eauto 10.
  - right; left. eauto.
Qed.

(** The handler answers with 200, 400 or 500 and nothing else; the body
    holds a path exactly when the status is 200, and that path is one
    the storage backend reported for a write. *)
Theorem POST_answers (env : Upload.Env) (request : Request) :
  (status (POST env request) = 200 \/ status (POST env request) = 400
   \/ status (POST env request) = 500)
  /\ (status (POST env request) = 200
      <-> exists p, body (POST env request) = PathBody p)
  /\ (forall p, body (POST env request) = PathBody p ->
        exists path content contentType,
          storageUpload env path content contentType = Stored p).
Proof.
  unfold POST. destruct (POST_body env request) as [r|] eqn:B; cbn [tryCatch].
  - destruct (POST_body_cases _ _ _ B)
      as [->|[(m & ->)|(p & path & content & ct & -> & S)]]; cbn.
    + split; [tauto|]. split; [|discriminate].
      split; [discriminate | intros (p & H); discriminate].
    + split; [tauto|]. split; [|discriminate].
      split; [discriminate | intros (p & H); discriminate].
    + split; [tauto|]. split; [split; eauto|].
      intros q H. injection H as <-. eauto.
  - cbn. split; [tauto|]. split; [|discriminate].
    split; [discriminate | intros (p & H); discriminate].
Qed.

(** A request whose body is not form data is answered with 500 and
    "Server error occurred".  So is a request that has all three fields,
    none of them empty, but a text value as [file] or a file as
    [companyName], whatever the storage backend would do.  The guard
    for missing fields comes first: with one of the three fields absent
    or empty the answer is 400, a text value as [file] or not. *)
Theorem POST_malformed_request (env : Upload.Env) (request : Request) :
  (formData request = None ->
   POST env request = mkResponse 500 (ErrorBody (js "Server error occurred")))
  /\ (forall fd,
        formData request = Some fd ->
        falsy (get "file" fd) = false ->
        falsy (get "folder" fd) = false ->
        falsy (get "companyName" fd) = false ->
        (exists s, get "file" fd = Some (EntryString s))
        \/ (exists f, get "companyName" fd = Some (EntryFile f)) ->
        POST env request
        = mkResponse 500 (ErrorBody (js "Server error occurred")))
  /\ (forall fd,
        formData request = Some fd ->
        falsy (get "file" fd) = true \/ falsy (get "folder" fd) = true
        \/ falsy (get "companyName" fd) = true ->
        POST env request
        = mkResponse 400 (ErrorBody (js "Missing required fields"))).
Proof.
  unfold POST, POST_body. split; [|split].
  - intros ->. reflexivity.
  - intros fd -> F1 F2 F3 Hbad.
    cbn [fromOption bind]. rewrite F1, F2, F3. cbn [orb].
    destruct (get "file" fd) as [fv|]; [|discriminate F1].
    destruct (get "folder" fd) as [dv|]; [|discriminate F2].
    destruct (get "companyName" fd) as [cv|]; [|discriminate F3].
    cbn [fromOption bind].
    destruct Hbad as [(s & Hs)|(f & Hf)].
    + injection Hs as ->. destruct cv; reflexivity.
    + injection Hf as ->. reflexivity.
  - intros fd -> Hmiss. cbn [fromOption bind].
    assert (F : falsy (get "file" fd) || falsy (get "folder" fd)
                || falsy (get "companyName" fd) = true).
    { destruct Hmiss as [H|[H|H]]; rewrite H; rewrite ?orb_true_r; reflexivity. }
    rewrite F. reflexivity.
Qed.

Lemma POST_malformed_request_witness :
  POST (serverAt 1700000000000)
    (mkRequest (Some [("file"%string, EntryString (js "Invoice #1.pdf"));
                      ("folder"%string, EntryString (js "msds"));
                      ("companyName"%string, EntryString (js "Acme Co."))]))
  = mkResponse 500 (ErrorBody (js "Server error occurred"))
  /\ POST (serverAt 1700000000000)
       (mkRequest (Some [("file"%string, EntryString (js "Invoice #1.pdf"));
                         ("companyName"%string, EntryString (js "Acme Co."))]))
     = mkResponse 400 (ErrorBody (js "Missing required fields"))
  /\ POST (serverAt 1700000000000) (mkRequest None)
     = mkResponse 500 (ErrorBody (js "Server error occurred")).
Proof.
  split; [|split].
  - destruct (POST_malformed_request (serverAt 1700000000000)
                (mkRequest (Some [("file"%string, EntryString (js "Invoice #1.pdf"));
                                  ("folder"%string, EntryString (js "msds"));
                                  ("companyName"%string, EntryString (js "Acme Co."))])))
      as (_ & H & _).
    apply (H _ eq_refl); try reflexivity. left. eexists. reflexivity.
  - destruct (POST_malformed_request (serverAt 1700000000000)
                (mkRequest (Some [("file"%string, EntryString (js "Invoice #1.pdf"));
                                  ("companyName"%string, EntryString (js "Acme Co."))])))
      as (_ & _ & H).
    apply (H _ eq_refl). right; left. reflexivity.
  - apply (proj1 (POST_malformed_request (serverAt 1700000000000) (mkRequest None))).
    reflexivity.
Defined.

(** ** What a submission does *)

(** Whatever happens, [onSubmit] ends with the busy flag cleared and
    exactly one notification, and calls the database at most once; the
    form is reset exactly when the one insert succeeded, and the
    notification follows the result of that insert. *)
Theorem onSubmit_outcome (env : Orchestrator.Env)
  (data : DocumentUploadFormValues) :
  let out := onSubmit env data in
  isUploading out = false
  /\ length (toasts out) = 1%nat
  /\ (length (inserts out) <= 1)%nat
  /\ (formReset out = true
      <-> exists row, inserts out = [row] /\ insert env row = Inserted)
  /\ (forall row, inserts out = [row] ->
        toasts out
        = [match insert env row with
           | Inserted =>
               ToastSuccess "Documents Uploaded" "Your documents have been processed."
           | InsertError _ =>
               ToastError "Database Error" "Could not save document information."
           | InsertRejects =>
               ToastError "Something went wrong" "Please try again later."
           end]).
Proof.
  cbv zeta. unfold onSubmit.
  destruct (anyUploadsSucceeded (processFiles env data)).
  - destruct (insert env _) eqn:I;
      cbn [isUploading toasts inserts formReset length];
      (split; [reflexivity|]); (split; [reflexivity|]); (split; [lia|]);
      (split; [split|]).
    + intros _. eexists. split; [reflexivity | exact I].
    + reflexivity.
    + intros row H. injection H as <-. now rewrite I.
    + discriminate.
    + intros (row & H & HI). injection H as <-. rewrite I in HI. discriminate.
    + intros row H. injection H as <-. now rewrite I.
    + discriminate.
    + intros (row & H & HI). injection H as <-. rewrite I in HI. discriminate.
    + intros row H. injection H as <-. now rewrite I.
  - cbn [isUploading toasts inserts formReset length].
    split; [reflexivity|]. split; [reflexivity|]. split; [lia|].
    split; [split|].
    + discriminate.
    + intros (row & H & _). discriminate.
    + intros row H. discriminate.
Qed.

Lemma flat_map_length_sum {A B} (g : A -> list B) l :
  length (flat_map g l) = list_sum (map (fun x => length (g x)) l).
Proof.
  induction l as [|x l IH]; [reflexivity|].
  cbn [flat_map map list_sum]. now rewrite length_app, IH.
Qed.

(** Every request of a submission is for one of the twelve categories,
    carries one of the files chosen for it and the company name of the
    form; there are as many requests as chosen files, so a file list
    under any other key is never sent. *)
Theorem uploads_are_category_files (env : Orchestrator.Env)
  (data : DocumentUploadFormValues) :
  (forall a, In a (uploads (onSubmit env data)) ->
     exists k f,
       In k documentKeys /\ In f (selectedFiles data k)
       /\ sent a = uploadForm f k (companyName data))
  /\ length (uploads (onSubmit env data))
     = list_sum (map (fun k => length (selectedFiles data k)) documentKeys).
Proof.
  rewrite onSubmit_uploads. split.
  - intros a Ha.
    assert (Hs : In (sent a) (allRequests data)).
    { rewrite <- (processFiles_sent env data). now apply in_map. }
    unfold allRequests in Hs. apply in_flat_map in Hs as (doc & Hdoc & Hs).
    apply in_map_iff in Hs as (f & Hs & Hf).
    exists (fst doc), f. split; [|split; [exact Hf | now symmetry]].
    unfold documentKeys. now apply in_map.
  - rewrite <- (length_map sent), processFiles_sent.
    unfold allRequests. rewrite flat_map_length_sum.
    unfold documentKeys. rewrite map_map. f_equal.
    apply map_ext. intros doc. now rewrite length_map.
Qed.

Lemma documentKeys_nonempty k : In k documentKeys -> js k <> [].
Proof.
  cbn. intros H.
  repeat (destruct H as [<-|H]; [discriminate|]). contradiction.
Qed.

Lemma allRequests_forms data form :
  In form (allRequests data) ->
  exists k f,
    In k documentKeys /\ In f (selectedFiles data k)
    /\ form = uploadForm f k (companyName data).
Proof.
  unfold allRequests. intros Hs.
  apply in_flat_map in Hs as (doc & Hdoc & Hs).
  apply in_map_iff in Hs as (f & Hs & Hf).
  exists (fst doc), f. split; [|split; [exact Hf | now symmetry]].
  unfold documentKeys. now apply in_map.
Qed.

Lemma uploadForm_fields f k c :
  get "file" (uploadForm f k c) = Some (EntryFile f)
  /\ get "folder" (uploadForm f k c) = Some (EntryString (js k))
  /\ get "companyName" (uploadForm f k c) = Some (EntryString c).
Proof. repeat split. Qed.

Lemma POST_uploadForm env f k c :
  In k documentKeys -> c <> [] ->
  POST env (mkRequest (Some (uploadForm f k c)))
  = match storageUpload env
            (storagePath (Upload.normalizeNFD env) (js k) c (name f) (Upload.now env))
            (bytes f) (type f) with
    | Stored p => mkResponse 200 (PathBody p)
    | StorageError message => mkResponse 500 (ErrorBody message)
    | StorageRejects => mkResponse 500 (ErrorBody (js "Server error occurred"))
    end.
Proof.
  intros Hk Hc. unfold POST.
  rewrite (POST_complete_form env _ f (js k) c);
    [|reflexivity|reflexivity|now apply documentKeys_nonempty|reflexivity|exact Hc].
  destruct (storageUpload env _ _ _); reflexivity.
Qed.

(** The form's schema asks for a company name of two code units or
    more; the requests of a submission that passed it are never
    answered with 400 "Missing required fields" by the handler: the
    answer is 200 or 500, as the storage write goes. *)
Theorem validated_submission_is_never_rejected
  (data : DocumentUploadFormValues) (env : Upload.Env) (form : FormData) :
  FormView.schemaAccepts data = true ->
  In form (allRequests data) ->
  status (POST env (mkRequest (Some form))) <> 400
  /\ (status (POST env (mkRequest (Some form))) = 200
      \/ status (POST env (mkRequest (Some form))) = 500).
Proof.
  unfold FormView.schemaAccepts. intros Hlen Hform.
  apply Nat.leb_le in Hlen.
  apply allRequests_forms in Hform as (k & f & Hk & _ & ->).
  rewrite POST_uploadForm;
    [|exact Hk|intros E; rewrite E in Hlen; cbn in Hlen; lia].
  destruct (storageUpload env _ _ _); cbn; split; try discriminate; tauto.
Qed.

Lemma validated_submission_is_never_rejected_witness :
  status (POST (brokenServerAt 1700000000000)
            (mkRequest (Some (uploadForm invoice "commercialInvoice" (js "Acme Co.")))))
    <> 400
  /\ (status (POST (brokenServerAt 1700000000000)
                (mkRequest (Some (uploadForm invoice "commercialInvoice" (js "Acme Co.")))))
      = 200
      \/ status (POST (brokenServerAt 1700000000000)
                   (mkRequest (Some (uploadForm invoice "commercialInvoice" (js "Acme Co.")))))
         = 500).
Proof.
  apply (validated_submission_is_never_rejected oneInvoice).
  - reflexivity.
  - vm_compute. left. reflexivity.
Defined.

Lemma POST_uploadForm_no_company env f k :
  POST env (mkRequest (Some (uploadForm f k [])))
  = mkResponse 400 (ErrorBody (js "Missing required fields")).
Proof.
  unfold POST, POST_body. cbn [formData fromOption bind].
  destruct (uploadForm_fields f k []) as (-> & -> & ->).
  cbn [falsy truthy negb]. rewrite orb_true_r. reflexivity.
Qed.

Lemma truthyPath_uploadResult st o p :
  truthyPath (uploadResult (FetchResponse st (Some o))) = Some p ->
  o = Some p /\ p <> [].
Proof.
  unfold uploadResult. destruct (ok st); cbn; [|discriminate].
  destruct o as [q|]; cbn; [|discriminate].
  destruct q as [|c q]; cbn; [discriminate|].
  intros H. injection H as <-. split; [reflexivity | discriminate].
Qed.

(** A path in the body of the handler's answer is what the storage
    backend reported for the key built from the fields of the form that
    arrived. *)
Lemma POST_path_body env request p :
  body (POST env request) = PathBody p ->
  exists fd received folder company,
    formData request = Some fd
    /\ get "file" fd = Some (EntryFile received)
    /\ get "folder" fd = Some folder
    /\ get "companyName" fd = Some (EntryString company)
    /\ storageUpload env
         (storagePath (Upload.normalizeNFD env) (entryToString folder) company
            (name received) (Upload.now env))
         (bytes received) (type received) = Stored p.
Proof.
  unfold POST, POST_body. destruct (formData request) as [fd|]; [|discriminate].
  cbn [fromOption bind].
  destruct (falsy (get "file" fd) || falsy (get "folder" fd)
            || falsy (get "companyName" fd)); [discriminate|].
  destruct (get "file" fd) as [fv|] eqn:Hf; [|discriminate].
  destruct (get "folder" fd) as [dv|] eqn:Hd; [|discriminate].
  destruct (get "companyName" fd) as [cv|] eqn:Hc; [|discriminate].
  cbn [fromOption bind].
  destruct cv as [c|]; [|discriminate].
  destruct fv as [|f]; [discriminate|].
  cbn [asString asFile bind].
  destruct (storageUpload env _ _ _) as [q| |] eqn:S; cbn; try discriminate.
  intros H. injection H as ->.
  exists fd, f, dv, c. split; [reflexivity|]. split; [exact Hf|].
  split; [exact Hd|]. split; [exact Hc | exact S].
Qed.

(** With the route handler behind [fetch], a transport that delivers the
    [folder] field as it was sent, and a bucket that stores under the
    key it is given, every path collected for a category lies in the
    folder named after the category: it is the storage path the handler
    built, in that folder, from the company name and the file name as
    they arrived for one of the files chosen for that category. *)
Theorem collected_paths_are_storage_paths
  (wire : FormData -> Request) (server : nat -> Upload.Env)
  (database : SubmissionRow -> InsertResult) (clock : jsstring)
  (data : DocumentUploadFormValues) (k : string) (l : list jsstring)
  (p : jsstring) :
  (forall n, Stored.echoes (server n)) ->
  (forall form fd,
     formData (wire form) = Some fd -> get "folder" fd = get "folder" form) ->
  In k documentKeys ->
  documentPaths
    (processFiles
       (Orchestrator.mkEnv (fetchFromServer wire server) database clock) data)
    !! k = Some l ->
  In p l ->
  Stored.inFolder k p
  /\ exists f n fd received company,
       In f (selectedFiles data k)
       /\ formData (wire (uploadForm f k (companyName data))) = Some fd
       /\ get "file" fd = Some (EntryFile received)
       /\ get "companyName" fd = Some (EntryString company)
       /\ p = storagePath (Upload.normalizeNFD (server n)) (js k)
                company (name received) (Upload.now (server n)).
Proof.
  intros Hecho Hwire Hk Hl Hp.
  set (env := Orchestrator.mkEnv (fetchFromServer wire server) database clock) in *.
  destruct (processFiles_coherent env data) as (_ & Hlk & _ & Htr).
  rewrite (Hlk k Hk) in Hl. injection Hl as <-.
  unfold pathsOf in Hp.
  apply list_elem_of_In, list_elem_of_omap in Hp as (a & Ha & Hpa).
  apply list_elem_of_In, List.filter_In in Ha as [Ha Hto].
  assert (Hform : In (sent a) (allRequests data)).
  { rewrite <- (processFiles_sent env data). now apply in_map. }
  apply allRequests_forms in Hform as (k' & f & Hk' & Hf & Hsent).
  assert (k' = k) as ->.
  { destruct a as [s r]. cbn [sent] in Hsent. subst s.
    rewrite sentTo_uploadForm in Hto. now apply bool_decide_eq_true_1 in Hto. }
  apply list_elem_of_In, list_elem_of_lookup in Ha as [i Hi].
  pose proof (Htr i a Hi) as Hrecv.
  unfold attemptPath in Hpa. rewrite Hrecv, Hsent in Hpa.
  cbn [fetch env] in Hpa. unfold fetchFromServer in Hpa.
  apply truthyPath_uploadResult in Hpa as [Hbody _].
  assert (Hb : body (POST (server i) (wire (uploadForm f k (companyName data))))
               = PathBody p).
  { destruct (body _) as [q|m]; [|discriminate Hbody].
    now injection Hbody as ->. }
  apply POST_path_body in Hb
    as (fd & received & folder & company & Hfd & Hfile & Hfolder & Hcomp & Hst).
  rewrite (Hwire _ _ Hfd) in Hfolder. cbn in Hfolder.
  injection Hfolder as <-. cbn [entryToString] in Hst.
  apply Hecho in Hst.
  split.
  - exists (storageFileName (Upload.normalizeNFD (server i)) company
              (name received) (Upload.now (server i))).
    exact Hst.
  - exists f, i, fd, received, company. repeat (split; [assumption|]). exact Hst.
Qed.

Lemma echoes_serverAt t : Stored.echoes (serverAt t).
Proof.
  intros path content ct p H. cbn in H. unfold acceptingStorage in H.
  now injection H as <-.
Qed.

Lemma collected_paths_are_storage_paths_witness :
  Stored.inFolder "commercialInvoice" invoicePath
  /\ exists f n fd received company,
       In f (selectedFiles oneInvoice "commercialInvoice")
       /\ formData (plainWire (uploadForm f "commercialInvoice" (companyName oneInvoice)))
          = Some fd
       /\ get "file" fd = Some (EntryFile received)
       /\ get "companyName" fd = Some (EntryString company)
       /\ invoicePath
          = storagePath
              (Upload.normalizeNFD (serverAt (1700000000000 + Z.of_nat n)))
              (js "commercialInvoice") company (name received)
              (Upload.now (serverAt (1700000000000 + Z.of_nat n))).
Proof.
  apply (collected_paths_are_storage_paths plainWire
           (fun n => serverAt (1700000000000 + Z.of_nat n))
           (fun _ => Inserted) (js "2023-11-14T22:13:20.000Z")
           oneInvoice "commercialInvoice" [invoicePath] invoicePath).
  - intros n. apply echoes_serverAt.
  - intros form fd H. injection H as <-. reflexivity.
  - cbn. tauto.
  - vm_compute. reflexivity.
  - left. reflexivity.
Defined.

(** ** The file fields and the sample documents *)

(** A file field shows a preview exactly when files are chosen for it,
    which are the files [onSubmit] uploads for that category: at most
    three names, the first ones in order, and the number of the others,
    which is shown only when there are more than three; names shown and
    others add up to the number of files. *)
Theorem fieldView_preview (data : DocumentUploadFormValues) (key : string) :
  let fileList := fileLists data !! key in
  let files := selectedFiles data key in
  FormView.filesArray fileList = files
  /\ (FormView.preview (FormView.fieldView fileList) = None <-> files = [])
  /\ (forall names more,
        FormView.preview (FormView.fieldView fileList) = Some (names, more) ->
        names = map name (take 3 files)
        /\ (length names <= 3)%nat
        /\ Z.of_nat (length names) + match more with Some n => n | None => 0 end
           = Z.of_nat (length files)
        /\ (more = None <-> (length files <= 3)%nat))
  /\ (FormView.className (FormView.fieldView fileList)
      = "p-3 rounded-md transition-colors border border-green-200"%string
      <-> files <> []).
Proof.
  cbv zeta. unfold selectedFiles, FormView.fieldView, FormView.filesArray.
  destruct (fileLists data !! key) as [[|f files]|]; cbn [FormView.hasFiles].
  - cbn. repeat split; try discriminate; try tauto.
  - cbn [FormView.preview FormView.className].
    split; [reflexivity|]. split; [split; discriminate|]. split.
    + intros names more H. injection H as <- <-.
      split; [reflexivity|]. cbn [length].
      rewrite length_map, length_take.
      split; [lia|].
      destruct (3 <? S (length files))%nat eqn:L.
      * apply Nat.ltb_lt in L.
        split; [lia|]. split; [discriminate | intros H; lia].
      * apply Nat.ltb_ge in L.
        split; [lia|]. split; [intros _; exact L | reflexivity].
    + split; [discriminate | reflexivity].
  - cbn. repeat split; try discriminate; try tauto.
Qed.

Example fieldView_five_files :
  FormView.preview
    (FormView.fieldView
       (Some [invoice; readme; invoice; readme; invoice]))
  = Some ([js "Invoice #1.pdf"; js "README"; js "Invoice #1.pdf"], Some 2).
Proof. reflexivity. Qed.

Lemma SAMPLE_DOCUMENTS_keys k :
  In k (map fst FormView.SAMPLE_DOCUMENTS) <-> In k documentKeys.
Proof.
  cbn. split; intros H;
    repeat (destruct H as [<-|H]; [tauto|]); contradiction.
Qed.

(** The table of sample documents has an entry for each of the twelve
    categories and for nothing else.  For a category, the preview opens
    the sample's URL followed by "?t=" and the time in milliseconds,
    whatever the object inherits, so two previews of a category at
    different times use different URLs.  For any other name the read
    falls through to what the object inherits: a window is opened when
    the name is an inherited property, and nothing is opened when it is
    not. *)
Theorem openSampleDocument_opens (objectPrototype : string -> option jsstring)
  (documentType : string) (t1 t2 : Z) :
  (In documentType documentKeys ->
     exists url,
       FormView.ownSample FormView.SAMPLE_DOCUMENTS documentType = Some url
       /\ FormView.openSampleDocument objectPrototype documentType t1
          = Some (js url ++ js "?t=" ++ numberToString t1)
       /\ (FormView.openSampleDocument objectPrototype documentType t1
           = FormView.openSampleDocument objectPrototype documentType t2 ->
           t1 = t2))
  /\ (~ In documentType documentKeys ->
      FormView.openSampleDocument objectPrototype documentType t1
      = match objectPrototype documentType with
        | Some inherited => Some (inherited ++ js "?t=" ++ numberToString t1)
        | None => None
        end)
  /\ (In documentType (map fst FormView.SAMPLE_DOCUMENTS)
      <-> In documentType documentKeys).
Proof.
  split; [|split; [|apply SAMPLE_DOCUMENTS_keys]].
  - intros Hk.
    assert (Hurl : exists url,
               FormView.ownSample FormView.SAMPLE_DOCUMENTS documentType
               = Some url /\ truthy (js url) = true).
    { cbn in Hk.
      repeat (destruct Hk as [<-|Hk];
              [eexists; split; [vm_compute; reflexivity | reflexivity]|]).
      contradiction. }
    destruct Hurl as (url & Hurl & Ht). exists url.
    unfold FormView.openSampleDocument, FormView.lookupSample.
    rewrite Hurl. cbn [FormView.truthyValue FormView.valueToString].
    rewrite Ht.
    split; [reflexivity|]. split; [reflexivity|].
    intros H. injection H as H. apply app_inv_head in H.
    apply (app_inv_head (js "?t=")) in H.
    now apply numberToString_inj.
  - intros Hk. unfold FormView.openSampleDocument, FormView.lookupSample.
    assert (Hnone : forall table,
               ~ In documentType (map fst table) ->
               FormView.ownSample table documentType = None).
    { induction table as [|[k u] table IH]; [reflexivity|].
      cbn. intros Hn. destruct (String.eqb k documentType) eqn:E.
      - apply String.eqb_eq in E. tauto.
      - apply IH. tauto. }
    rewrite Hnone by now rewrite SAMPLE_DOCUMENTS_keys.
    destruct (objectPrototype documentType); reflexivity.
Qed.

Lemma openSampleDocument_opens_witness :
  (exists url,
     FormView.ownSample FormView.SAMPLE_DOCUMENTS "tk31" = Some url
     /\ FormView.openSampleDocument prototypeSample "tk31" 1700000000000
        = Some (js url ++ js "?t=" ++ numberToString 1700000000000)
     /\ (FormView.openSampleDocument prototypeSample "tk31" 1700000000000
         = FormView.openSampleDocument prototypeSample "tk31" 1700000000001 ->
         1700000000000 = 1700000000001))
  /\ FormView.openSampleDocument prototypeSample "constructor" 1700000000000
     = Some (js "function Object() { [native code] }?t=1700000000000")
  /\ FormView.openSampleDocument prototypeSample "invoice" 1700000000000 = None.
Proof.
  split; [|split].
  - apply (proj1 (openSampleDocument_opens prototypeSample "tk31"
                    1700000000000 1700000000001)).
    cbn. tauto.
  - rewrite (proj1 (proj2 (openSampleDocument_opens prototypeSample "constructor"
                             1700000000000 1700000000000))).
    + vm_compute. reflexivity.
    + cbn. intuition discriminate.
  - rewrite (proj1 (proj2 (openSampleDocument_opens prototypeSample "invoice"
                             1700000000000 1700000000000))).
    + reflexivity.
    + cbn. intuition discriminate.
Defined.

(** ** Loading the list of submissions *)

(** Before the query returns the page shows the skeletons only.  After
    it, [loading] is off and exactly one block is shown: the submissions
    in the order the query gave them, or "No submissions found." when it
    gave none (or [null]); when the query failed, the alert with the
    message, the list kept as it was and not shown. *)
Theorem page_after_fetch (st : SubmissionsPage.PageState)
  (r : SubmissionsPage.QueryResult) :
  let st' := SubmissionsPage.fetchSubmissions st r in
  let v := SubmissionsPage.renderPage st' in
  SubmissionsPage.renderPage SubmissionsPage.initialPage
    = SubmissionsPage.mkPageView true None false []
  /\ SubmissionsPage.loading st' = false
  /\ SubmissionsPage.skeletons v = false
  /\ SubmissionsPage.blocksShown v = 1%nat
  /\ match r with
     | SubmissionsPage.QueryData data =>
         SubmissionsPage.alert v = None
         /\ SubmissionsPage.cards v = match data with Some l => l | None => [] end
         /\ (SubmissionsPage.noSubmissions v = true
             <-> SubmissionsPage.cards v = [])
     | SubmissionsPage.QueryError message =>
         SubmissionsPage.alert v
           = Some (js "Failed to load submissions. " ++ message)
         /\ SubmissionsPage.cards v = []
         /\ SubmissionsPage.noSubmissions v = false
         /\ SubmissionsPage.submissions st' = SubmissionsPage.submissions st
     | SubmissionsPage.QueryRejects =>
         SubmissionsPage.alert v = Some (js "An unexpected error occurred.")
         /\ SubmissionsPage.cards v = []
         /\ SubmissionsPage.noSubmissions v = false
         /\ SubmissionsPage.submissions st' = SubmissionsPage.submissions st
     end.
Proof.
  cbv zeta. split; [reflexivity|].
  destruct r as [[[|s l]|]|message|]; cbn;
    repeat split; try reflexivity; try discriminate.
Qed.

(** ** Labels and links of the viewer *)

Lemma spaceBeforeCapitals_without_spaces s :
  List.filter (fun c => negb (c =? space)) (spaceBeforeCapitals s)
  = List.filter (fun c => negb (c =? space)) s.
Proof.
  induction s as [|c s IH]; [reflexivity|].
  unfold spaceBeforeCapitals in *. cbn [flat_map].
  rewrite List.filter_app, IH.
  destruct (isUpper c) eqn:U; cbn [List.filter];
    [change (space =? space) with true; cbn [negb]|];
    destruct (negb (c =? space)); reflexivity.
Qed.

Lemma spaceBeforeCapitals_length s :
  length (spaceBeforeCapitals s) = (length s + length (List.filter isUpper s))%nat.
Proof.
  induction s as [|c s IH]; [reflexivity|].
  unfold spaceBeforeCapitals in *. cbn [flat_map List.filter].
  rewrite length_app, IH.
  destruct (isUpper c); cbn [length]; lia.
Qed.

Lemma filter_nothing {A} (p : A -> bool) l :
  (forall x, In x l -> p x = true) -> List.filter p l = l.
Proof.
  induction l as [|x l IH]; intros H; [reflexivity|].
  cbn. rewrite (H x) by now left. f_equal. apply IH.
  intros y Hy. apply H. now right.
Qed.

(** For a key that starts with a lower-case letter, which the runtime
    turns into its capital, and has no space in it, the label is the
    capital followed by the rest with a space put before each capital
    letter: one code unit longer per capital, and the key again once the
    spaces are taken out.  A key that starts with a capital gets the
    space in front of it. *)
Theorem formatDocType_label (toUpperCase : jsstring -> jsstring)
  (c : Z) (rest : jsstring) :
  (isLower c = true -> toUpperCase [c] = [c - 32] ->
     formatDocType toUpperCase (c :: rest) = (c - 32) :: spaceBeforeCapitals rest
     /\ length (formatDocType toUpperCase (c :: rest))
        = S (length rest + length (List.filter isUpper rest))
     /\ (~ In space rest ->
         List.filter (fun x => negb (x =? space))
           (formatDocType toUpperCase (c :: rest))
         = (c - 32) :: rest))
  /\ (isUpper c = true ->
      formatDocType toUpperCase (c :: rest)
      = toUpperCase [space] ++ c :: spaceBeforeCapitals rest).
Proof.
  split.
  - intros Hlow Hup.
    assert (E : formatDocType toUpperCase (c :: rest)
                = (c - 32) :: spaceBeforeCapitals rest).
    { unfold formatDocType, spaceBeforeCapitals. cbn [flat_map].
      assert (U : isUpper c = false)
        by (unfold isLower, isUpper in *; lia).
      rewrite U. cbn [app capitalizeFirst].
      assert (L : isLineTerminator c = false)
        by (unfold isLower, isLineTerminator in *; lia).
      rewrite L, Hup. reflexivity. }
    rewrite E. split; [reflexivity|]. split.
    + cbn [length]. now rewrite spaceBeforeCapitals_length.
    + intros Hns. cbn [List.filter].
      assert (S1 : (c - 32 =? space) = false)
        by (unfold isLower, space in *; lia).
      rewrite S1. cbn [negb]. f_equal.
      rewrite spaceBeforeCapitals_without_spaces.
      apply filter_nothing. intros x Hx.
      destruct (x =? space) eqn:X; [|reflexivity].
      apply Z.eqb_eq in X. subst x. contradiction.
  - intros U. unfold formatDocType, spaceBeforeCapitals. cbn [flat_map].
    rewrite U. cbn [app capitalizeFirst].
    change (isLineTerminator space) with false. reflexivity.
Qed.

Lemma formatDocType_label_witness :
  formatDocType upperSample (js "commercialInvoice") = js "Commercial Invoice"
  /\ length (formatDocType upperSample (js "commercialInvoice")) = 18%nat
  /\ List.filter (fun x => negb (x =? space))
       (formatDocType upperSample (js "commercialInvoice"))
     = js "CommercialInvoice".
Proof.
  destruct (proj1 (formatDocType_label upperSample 99 (js "ommercialInvoice")))
    as (H1 & H2 & H3); [reflexivity | reflexivity |].
  split; [exact H1|]. split; [exact H2|].
  apply H3. vm_compute. intuition discriminate.
Defined.

Lemma substringFrom_drop a s :
  0 <= a <= Z.of_nat (length s) -> substringFrom a s = drop (Z.to_nat a) s.
Proof.
  intros Ha. unfold substringFrom, substring, clamp.
  replace (Z.to_nat (Z.max 0 (Z.min a (Z.of_nat (length s))))) with (Z.to_nat a) by lia.
  replace (Z.to_nat (Z.max 0 (Z.min (Z.of_nat (length s)) (Z.of_nat (length s)))))
    with (length s) by lia.
  rewrite Nat.min_l, Nat.max_r by lia.
  apply take_ge. rewrite length_drop. lia.
Qed.

(** The link of a stored file has the path as key and as target the
    URL the bucket gives, or ["#"] when it gives none or an empty one.
    Cut the path behind its last ['/'] (the front is empty or ends in
    ['/'], the rest has no ['/']): the text of the link is the rest, or
    the whole path when the rest is empty; it is empty only for the
    empty path. *)
Theorem renderLink_text (storagePublicUrl : jsstring -> option jsstring)
  (path : jsstring) :
  let link := renderLink storagePublicUrl path in
  linkKey link = path
  /\ href link <> []
  /\ (storagePublicUrl path = None \/ storagePublicUrl path = Some [] ->
      href link = js "#")
  /\ (forall url, storagePublicUrl path = Some url -> url <> [] ->
      href link = url)
  /\ (exists front rest,
        path = front ++ rest
        /\ (front = [] \/ last front = Some slash)
        /\ ~ In slash rest
        /\ (rest <> [] -> text link = rest)
        /\ (rest = [] -> text link = path))
  /\ (path <> [] -> text link <> []).
Proof.
  cbv zeta. unfold renderLink. cbn [href linkKey text].
  split; [reflexivity|]. split; [|split; [|split]].
  - unfold getPublicUrl. destruct (storagePublicUrl path) as [[|c u]|];
      discriminate.
  - unfold getPublicUrl. intros [-> | ->]; reflexivity.
  - unfold getPublicUrl. intros url -> Hne.
    destruct url; [contradiction | reflexivity].
  - pose proof (lastIndexOf_range slash path) as R.
    rewrite substringFrom_drop by lia.
    set (rest := drop (Z.to_nat (lastIndexOf slash path + 1)) path).
    assert (Hcut : exists front,
               path = front ++ rest
               /\ (front = [] \/ last front = Some slash)
               /\ ~ In slash rest).
    { destruct (Z.eq_dec (lastIndexOf slash path) (-1)) as [E|E].
      - exists []. unfold rest. rewrite E. cbn [drop Z.to_nat Z.add app].
        split; [reflexivity|]. split; [now left|].
        now apply lastIndexOf_absent.
      - destruct (lastIndexOf_cut slash path) as [Hcut Hno]; [lia|].
        exists (take (Z.to_nat (lastIndexOf slash path)) path ++ [slash]).
        split; [rewrite <- app_assoc; exact Hcut|].
        split; [right; apply last_snoc | exact Hno]. }
    destruct Hcut as (front & Hpath & Hfront & Hno).
    split.
    + exists front, rest. split; [exact Hpath|]. split; [exact Hfront|].
      split; [exact Hno|]. split.
      * intros Hne. destruct rest; [contradiction | reflexivity].
      * intros ->. reflexivity.
    + intros Hne. destruct rest as [|c rest'] eqn:Hrest; cbn [orString truthy].
      * exact Hne.
      * discriminate.
Qed.

Lemma cut_behind_last_slash_unique (front1 rest1 front2 rest2 : jsstring) :
  front1 ++ rest1 = front2 ++ rest2 ->
  front1 = [] \/ last front1 = Some slash ->
  front2 = [] \/ last front2 = Some slash ->
  ~ In slash rest1 -> ~ In slash rest2 ->
  rest1 = rest2.
Proof.
  revert front2. induction front1 as [|x f1 IH]; intros front2 E H1 H2 N1 N2.
  - cbn in E. destruct H2 as [->|H2]; [exact E|]. exfalso. apply N1.
    rewrite E. apply in_or_app. left.
    apply last_Some in H2 as (l' & ->). apply in_or_app. right. now left.
  - destruct front2 as [|y f2].
    + cbn in E. exfalso. apply N2. rewrite <- E.
      change (In slash ((x :: f1) ++ rest1)). apply in_or_app. left.
      destruct H1 as [H1|H1]; [discriminate|].
      apply last_Some in H1 as (l' & H1). rewrite H1.
      apply in_or_app. right. now left.
    + cbn in E. injection E as -> E.
      apply (IH f2 E); try assumption.
      * destruct f1 as [|z f1']; [now left|]. right.
        destruct H1 as [H1|H1]; [discriminate | exact H1].
      * destruct f2 as [|z f2']; [now left|]. right.
        destruct H2 as [H2|H2]; [discriminate | exact H2].
Qed.

Example renderLink_folder_only :
  text (renderLink publicUrlSample (js "msds/")) = js "msds/"
  /\ href (renderLink (fun _ => None) (js "msds/")) = js "#".
Proof. split; reflexivity. Qed.

(** ** From the written row to the page *)

Lemma renderDocuments_entries toUpperCase storagePublicUrl s e m :
  Viewer.document_paths s = Some (e :: m) ->
  exists groups,
    renderDocuments toUpperCase storagePublicUrl s
    = Normal
        (DocumentList
           (groups ++
            if forallb noPaths (map snd (e :: m))
            then [Paragraph "No documents found for this submission type."]
            else []))
    /\ categoryKeys groups
       = map fst (List.filter (fun x => hasPaths (snd x)) (e :: m))
    /\ paragraphs groups = [].
Proof.
  intros Hdp. unfold Viewer.renderDocuments. rewrite Hdp.
  cbn [objectKeys fromOption bind map length Nat.eqb objectEntries objectValues].
  destruct (render_filtered toUpperCase storagePublicUrl (e :: m))
    as (groups & Hg & Hk & Hp).
  rewrite Hg. cbn [bind]. exists groups. split; [reflexivity|]. now split.
Qed.

Lemma shown_keys_filter (m : PathsObject) key :
  In key (map fst (List.filter (fun x => hasPaths (snd x)) m))
  <-> exists x l, In (key, Some (x :: l)) m.
Proof.
  split.
  - intros H. apply in_map_iff in H as ([k' p] & <- & He).
    apply List.filter_In in He as [He Hp]. cbn [snd fst] in *.
    destruct p as [[|x l]|]; try discriminate Hp. eauto.
  - intros (x & l & H). apply in_map_iff. exists (key, Some (x :: l)).
    split; [reflexivity|]. apply List.filter_In. now split.
Qed.

Lemma some_paths_not_all_empty (m : PathsObject) key x l :
  In (key, Some (x :: l)) m -> forallb noPaths (map snd m) = false.
Proof.
  intros H. destruct (forallb noPaths (map snd m)) eqn:F; [|reflexivity].
  rewrite forallb_forall in F.
  specialize (F (Some (x :: l))). cbn in F. symmetry. apply F.
  apply in_map_iff. exists (key, Some (x :: l)). now split.
Qed.

(** A row that [onSubmit] wrote has a path in some category. *)
Lemma written_row_has_a_path env data row :
  In row (inserts (onSubmit env data)) ->
  Orchestrator.document_paths row = documentPaths (processFiles env data)
  /\ exists k x l,
       In k documentKeys
       /\ documentPaths (processFiles env data) !! k = Some (x :: l).
Proof.
  intros Hrow. rewrite onSubmit_inserts in Hrow.
  destruct (existsb succeeded _) eqn:Hany; [|contradiction].
  destruct Hrow as [<-|[]]. split; [reflexivity|].
  apply existsb_exists in Hany as (a & Ha & Hs).
  destruct (processFiles_coherent env data) as (_ & Hlk & _ & _).
  assert (Hform : In (sent a) (allRequests data)).
  { rewrite <- (processFiles_sent env data). now apply in_map. }
  apply allRequests_forms in Hform as (k & f & Hk & _ & Hsent).
  unfold succeeded in Hs. destruct (attemptPath a) as [p|] eqn:Hp;
    [|discriminate].
  assert (Hin : In p (pathsOf k (attempts (processFiles env data)))).
  { unfold pathsOf. apply list_elem_of_In, list_elem_of_omap.
    exists a. split; [|exact Hp].
    apply list_elem_of_In, List.filter_In. split; [exact Ha|].
    destruct a as [s r]. cbn [sent] in Hsent. subst s.
    rewrite sentTo_uploadForm. now apply bool_decide_eq_true_2. }
  exists k. rewrite (Hlk k Hk).
  destruct (pathsOf k _) as [|x l]; [contradiction|]. eauto.
Qed.

(** When the viewer reads back a row that [onSubmit] wrote, with the
    twelve entries in whatever order the database returns them, it shows
    no "no documents" message and at least one category: exactly the
    categories for which an upload of that submission succeeded. *)
Theorem written_row_is_shown (env : Orchestrator.Env)
  (data : DocumentUploadFormValues) (row : SubmissionRow)
  (toUpperCase : jsstring -> jsstring)
  (storagePublicUrl : jsstring -> option jsstring)
  (m : PathsObject) (rowId uploadedAt : jsstring) :
  In row (inserts (onSubmit env data)) ->
  Permutation m (Stored.entries row) ->
  exists d,
    renderDocuments toUpperCase storagePublicUrl
      (mkSubmission rowId (Orchestrator.company_name row) (Some m) uploadedAt)
    = Normal d
    /\ shownPlaceholders d = []
    /\ shownCategories d <> []
    /\ (forall key,
          In key (shownCategories d)
          <-> exists k x l,
                In k documentKeys /\ key = js k
                /\ Orchestrator.document_paths row !! k = Some (x :: l)).
Proof.
  intros Hrow Hperm.
  destruct (written_row_has_a_path env data row Hrow)
    as (Hdp & k0 & x0 & l0 & Hk0 & Hl0).
  rewrite <- Hdp in Hl0.
  assert (Hentry : forall key x l,
             In (key, Some (x :: l)) m
             <-> exists k, In k documentKeys /\ key = js k
                           /\ Orchestrator.document_paths row !! k
                              = Some (x :: l)).
  { intros key x l. split.
    - intros H. apply (Permutation_in _ Hperm) in H.
      unfold Stored.entries in H. apply in_map_iff in H as (k & E & Hk).
      injection E as <- E. eauto.
    - intros (k & Hk & -> & Hl).
      apply (Permutation_in _ (Permutation_sym Hperm)).
      unfold Stored.entries. apply in_map_iff. exists k.
      split; [now rewrite Hl | exact Hk]. }
  assert (H0 : In (js k0, Some (x0 :: l0)) m) by (apply Hentry; eauto).
  destruct m as [|e m']; [contradiction|].
  destruct (renderDocuments_entries toUpperCase storagePublicUrl
              (mkSubmission rowId (Orchestrator.company_name row)
                 (Some (e :: m')) uploadedAt) e m' eq_refl)
    as (groups & Hr & Hkeys & Hpar).
  rewrite (some_paths_not_all_empty _ _ _ _ H0), app_nil_r in Hr.
  exists (DocumentList groups). split; [exact Hr|].
  cbn [shownPlaceholders shownCategories]. rewrite Hkeys.
  split; [exact Hpar|]. split.
  - intros E.
    assert (Hin : In (js k0)
                    (map fst (List.filter (fun x => hasPaths (snd x)) (e :: m'))))
      by (apply shown_keys_filter; eauto).
    rewrite E in Hin. contradiction.
  - intros key. rewrite shown_keys_filter. split.
    + intros (x & l & H). apply Hentry in H as (k & Hk & -> & Hl). eauto 10.
    + intros (k & x & l & Hk & -> & Hl). exists x, l. apply Hentry. eauto.
Qed.

Lemma written_row_is_shown_witness :
  exists row d,
    inserts (onSubmit workingPortal oneInvoice) = [row]
    /\ renderDocuments upperSample publicUrlSample
         (mkSubmission (js "4") (Orchestrator.company_name row)
            (Some (Stored.entries row)) (js "2023-11-14T22:13:20.000Z"))
       = Normal d
    /\ shownPlaceholders d = []
    /\ shownCategories d <> [].
Proof.
  eexists.
  destruct (written_row_is_shown workingPortal oneInvoice _
              upperSample publicUrlSample _ (js "4")
              (js "2023-11-14T22:13:20.000Z")
              (or_introl eq_refl) (Permutation_refl _))
    as (d & H1 & H2 & H3 & _).
  exists d. split; [vm_compute; reflexivity|].
  split; [exact H1|]. split; [exact H2 | exact H3].
Defined.

(** ** How many paths a category gets *)

Lemma filter_flat_map {A B} (p : B -> bool) (g : A -> list B) l :
  List.filter p (flat_map g l) = flat_map (fun x => List.filter p (g x)) l.
Proof.
  induction l as [|x l IH]; [reflexivity|].
  cbn [flat_map]. now rewrite List.filter_app, IH.
Qed.

Lemma filter_map_length {A B} (p : B -> bool) (f : A -> B) l :
  length (List.filter (fun x => p (f x)) l) = length (List.filter p (map f l)).
Proof.
  induction l as [|x l IH]; [reflexivity|].
  cbn. destruct (p (f x)); cbn; now rewrite IH.
Qed.

Lemma omap_length_le {A B} (f : A -> option B) l :
  (length (omap f l) <= length l)%nat.
Proof.
  induction l as [|x l IH]; [reflexivity|].
  cbn. destruct (f x); cbn; lia.
Qed.

Lemma omap_length_all {A B} (f : A -> option B) l :
  (forall x, In x l -> f x <> None) -> length (omap f l) = length l.
Proof.
  induction l as [|x l IH]; intros H; [reflexivity|].
  cbn. destruct (f x) eqn:E.
  - cbn. f_equal. apply IH. intros y Hy. apply H. now right.
  - exfalso. apply (H x); [now left | exact E].
Qed.

(** The attempts made for a category are as many as the files chosen
    for it. *)
Lemma attempts_of_category env data k :
  In k documentKeys ->
  length (List.filter (sentTo k) (attempts (processFiles env data)))
  = length (selectedFiles data k).
Proof.
  intros Hk.
  set (folderIs := fun form : FormData =>
                     match get "folder" form with
                     | Some (EntryString s) => bool_decide (s = js k)
                     | _ => false
                     end).
  change (sentTo k) with (fun a => folderIs (sent a)).
  rewrite (filter_map_length folderIs sent), processFiles_sent.
  unfold allRequests. rewrite filter_flat_map.
  unfold documentKeys in Hk. apply in_map_iff in Hk as (doc & <- & Hdoc).
  rewrite (flat_map_only fst _ documentTypes doc).
  - rewrite filter_nothing; [now rewrite length_map|].
    intros form Hform. apply in_map_iff in Hform as (f & <- & _).
    unfold folderIs. cbn. now apply bool_decide_eq_true_2.
  - apply NoDup_ListNoDup, documentKeys_NoDup.
  - exact Hdoc.
  - intros y Hy Hne.
    induction (selectedFiles data (fst y)) as [|f fs IH]; [reflexivity|].
    cbn [map List.filter]. unfold folderIs at 1. cbn.
    rewrite bool_decide_eq_false_2; [exact IH|].
    intros E. apply js_inj in E. contradiction.
Qed.

(** A category never gets more paths than files were chosen for it, and
    gets one path per file when none of its uploads failed. *)
Theorem paths_per_category (env : Orchestrator.Env)
  (data : DocumentUploadFormValues) (k : string) :
  In k documentKeys ->
  exists l,
    documentPaths (processFiles env data) !! k = Some l
    /\ (length l <= length (selectedFiles data k))%nat
    /\ ((forall a, In a (uploads (onSubmit env data)) ->
           sentTo k a = true -> succeeded a = true) ->
        length l = length (selectedFiles data k)).
Proof.
  intros Hk.
  destruct (processFiles_coherent env data) as (_ & Hlk & _ & _).
  exists (pathsOf k (attempts (processFiles env data))).
  split; [now apply Hlk|].
  rewrite <- (attempts_of_category env data k Hk). unfold pathsOf.
  split; [apply omap_length_le|].
  intros Hall. apply omap_length_all. intros a Ha.
  apply List.filter_In in Ha as [Ha Hto].
  rewrite onSubmit_uploads in Hall. specialize (Hall a Ha Hto).
  unfold succeeded in Hall. destruct (attemptPath a); [discriminate|].
  discriminate Hall.
Qed.

Lemma paths_per_category_witness :
  exists l,
    documentPaths (processFiles flakyPortal threeFiles) !! "msds"%string = Some l
    /\ (length l <= length (selectedFiles threeFiles "msds"))%nat
    /\ ((forall a, In a (uploads (onSubmit flakyPortal threeFiles)) ->
           sentTo "msds" a = true -> succeeded a = true) ->
        length l = length (selectedFiles threeFiles "msds")).
Proof.
  apply (paths_per_category flakyPortal threeFiles "msds"%string).
  cbn. tauto.
Defined.
